(** * driveWithJoystick.py: a joystick tele-operation loop for a Sphero robot

    Shallow embedding of [SpheroController] and [main], followed by the
    properties of the natural-language specification.

    Conventions of the model.
    - Python [int] values are [Z]; [konami_index], which the program only
      ever resets to 0 or increments, is a [nat].
    - Python [float] values (axes, voltages, clock readings, headings) are
      exact rationals [Q]; results of arithmetic are kept in lowest terms
      so that concrete runs can be compared with [=].  Rounding of binary
      floating point is not modelled: comparisons of a reading with a
      constant are the same in both, and so is arithmetic on integer values
      within the range where every integer is a float, but the remainder
      and the product of fractional values can differ in the last place
      (see [Num.py_mod] and [Num.mul]).  Properties that depend on
      arithmetic are therefore stated for integer headings.
    - The robot and the joystick are external: what a tick reads from them
      is collected in an environment record [Env], and every call made to
      the robot is appended to a trace together with its success flag.
    - Methods are computations in a state-and-exception monad [M]; a Python
      exception that leaves a method is the result [Raise]. *)

From Stdlib Require Import ZArith QArith Qabs Qround Qreduction.
From Stdlib Require Import List String Bool Lia Lqa.
Import ListNotations.

Open Scope Z_scope.

(** ** Numbers *)

Module Num.

Definition ltb (x y : Q) : bool := negb (Qle_bool y x).
Definition gtb (x y : Q) : bool := ltb y x.
Definition geb (x y : Q) : bool := Qle_bool y x.

Definition add (x y : Q) : Q := Qred (x + y).
Definition sub (x y : Q) : Q := Qred (x - y).
(** The exact product.  Python rounds [x * y] to the nearest float, so
    the two agree only where the exact product is a float: for instance
    [-10 * 0.2] is [-2.0] in both, while [-7 * 0.2] is
    [-1.4000000000000001] in Python and [-7/5] here. *)
Definition mul (x y : Q) : Q := Qred (x * y).
Definition neg (x : Q) : Q := Qred (- x).
Definition abs (x : Q) : Q := Qabs x.

(** Python's [x % y]: the remainder has the sign of the divisor,
    [x - y * floor (x / y)].  The program only divides by 360.  This is
    the exact value: it is what Python computes for every integer [x],
    [int] or integer-valued [float], but for a fractional [x] Python's
    result is rounded and can be [360.0] itself (at [-1e-20]), which the
    exact remainder never is. *)
Definition py_mod (x y : Q) : Q :=
  Qred (x - y * inject_Z (Qfloor (x / y))).

End Num.

(** ** Constants of the module *)

Definition BUTTONS : list (string * Z) :=
  [ ("1", 0); ("2", 1); ("3", 2); ("4", 3);
    ("L1", 4); ("R1", 5); ("L2", 6); ("R2", 7);
    ("SELECT", 8); ("START", 9);
    ("UP", 10); ("DOWN", 11); ("LEFT", 12); ("RIGHT", 13);
    ("B", 14); ("A", 15) ]%string.

(** [BUTTONS[name]] for the names the program uses (all are keys). *)
Fixpoint lookup_button (tbl : list (string * Z)) (name : string) : Z :=
  match tbl with
  | [] => -1
  | (k, v) :: rest => if String.eqb k name then v else lookup_button rest name
  end.

Definition button (name : string) : Z := lookup_button BUTTONS name.

Definition LED_PATTERNS : list (Z * string) :=
  [ (1, "1"); (2, "2"); (3, "3"); (4, "4"); (5, "5") ]%string.

(** [LED_PATTERNS.get(k, default)] *)
Fixpoint patterns_get (tbl : list (Z * string)) (k : Z) (default : string)
  : string :=
  match tbl with
  | [] => default
  | (k', v) :: rest => if Z.eqb k' k then v else patterns_get rest k default
  end.

Definition BATTERY_CHECK_INTERVAL : Q := 30.
Definition HEADING_ADJUSTMENT : Q := 5.

Definition KONAMI_CODE : list Z :=
  [ button "UP"; button "UP";
    button "DOWN"; button "DOWN";
    button "LEFT"; button "RIGHT";
    button "LEFT"; button "RIGHT";
    button "B"; button "A" ].

(** ** Session state, robot trace and console output *)

Inductive Color := RGB (r g b : Z).

Record Session := mkSession {
  speed : Z;
  base_heading : Q;
  color : Color;
  player_id : Z;
  is_running : bool;
  calibration_mode : bool;
  game_on : bool;
  last_battery_check : Q;
  game_start_time : Q;
  konami_index : nat;
  cheat_mode : bool
}.

(** Calls on the robot: [self.api.*] and [Power.get_battery_voltage];
    [EnterApi] and [ExitApi] are the [__enter__] and [__exit__] calls that
    [with self.api:] makes. *)
Inductive Call :=
| SetHeading (h : Q)
| SetSpeed (v : Z)
| SetFrontLed (c : Color)
| SetMatrixCharacter (ch : string) (c : Color)
| GetHeading
| GetBatteryVoltage
| EnterApi
| ExitApi.

(** A call together with whether it returned ([true]) or raised. *)
Definition Event : Type := Call * bool.

(** Lines written by [print]. *)
Inductive Msg :=
| MsgCalibrating (h : Q)
| MsgCalibrationComplete
| MsgBattery (player : Z) (v : Q)
| MsgBatteryFailed
| MsgCheatActivated
| MsgDisplayFailed
| MsgNoJoystick
| MsgSearchingNamed (name : string)
| MsgSearchingNearest
| MsgConnected
| MsgDiscoverError
| MsgNoToy
| MsgApiConnected
| MsgConnectError
| MsgUsage
| MsgConnecting (name : string) (joystick_id player : Z).

Record World := mkWorld {
  ses : Session;
  trace : list Event;
  out : list Msg
}.

(** What one tick observes of the outside: the joystick snapshot taken by
    [pygame.event.pump], the clock, the values the robot would report, and
    which robot calls fail ([fails n] speaks about the call issued when the
    trace already holds [n] events). *)
Record Env := mkEnv {
  get_button : Z -> bool;
  axis0 : Q;
  axis1 : Q;
  clock : Q;
  voltage_reading : Q;
  heading_reading : Q;
  fails : nat -> bool
}.

Inductive Exn := ActuatorError | IndexError.

Inductive Res (A : Type) :=
| Ret (a : A)
| Raise (x : Exn).
Arguments Ret {A} a.
Arguments Raise {A} x.

(** ** The monad *)

Definition M (A : Type) : Type := Env -> World -> Res A * World.

Definition ret {A} (a : A) : M A := fun _ w => (Ret a, w).

Definition bind {A B} (m : M A) (f : A -> M B) : M B :=
  fun e w =>
    match m e w with
    | (Ret a, w') => f a e w'
    | (Raise x, w') => (Raise x, w')
    end.

Definition raise {A} (x : Exn) : M A := fun _ w => (Raise x, w).

(** [try: m  except Exception: h] *)
Definition try_except {A} (m : M A) (h : M A) : M A :=
  fun e w =>
    match m e w with
    | (Ret a, w') => (Ret a, w')
    | (Raise _, w') => h e w'
    end.

Declare Scope py_scope.
Delimit Scope py_scope with py.
Notation "x <- m ;; k" := (bind m (fun x => k))
  (at level 61, m at next level, right associativity) : py_scope.
Notation "m ;; k" := (bind m (fun _ => k))
  (at level 61, right associativity) : py_scope.
Open Scope py_scope.

Definition when (c : bool) (m : M unit) : M unit :=
  if c then m else ret tt.

(** [for x in l: body x] *)
Fixpoint for_each {A} (l : list A) (body : A -> M unit) : M unit :=
  match l with
  | [] => ret tt
  | x :: rest => body x ;; for_each rest body
  end.

(** *** Reading and writing the session *)

Definition get {A} (f : Session -> A) : M A := fun _ w => (Ret (f (ses w)), w).

Definition modify (f : Session -> Session) : M unit :=
  fun _ w => (Ret tt, mkWorld (f (ses w)) (trace w) (out w)).

Definition ask {A} (f : Env -> A) : M A := fun e w => (Ret (f e), w).

Definition print (m : Msg) : M unit :=
  fun _ w => (Ret tt, mkWorld (ses w) (trace w) (out w ++ [m])).

Definition with_speed (v : Z) (s : Session) : Session :=
  mkSession v (base_heading s) (color s) (player_id s) (is_running s)
    (calibration_mode s) (game_on s) (last_battery_check s)
    (game_start_time s) (konami_index s) (cheat_mode s).

Definition with_base_heading (h : Q) (s : Session) : Session :=
  mkSession (speed s) h (color s) (player_id s) (is_running s)
    (calibration_mode s) (game_on s) (last_battery_check s)
    (game_start_time s) (konami_index s) (cheat_mode s).

Definition with_color (c : Color) (s : Session) : Session :=
  mkSession (speed s) (base_heading s) c (player_id s) (is_running s)
    (calibration_mode s) (game_on s) (last_battery_check s)
    (game_start_time s) (konami_index s) (cheat_mode s).

Definition with_calibration_mode (b : bool) (s : Session) : Session :=
  mkSession (speed s) (base_heading s) (color s) (player_id s) (is_running s)
    b (game_on s) (last_battery_check s)
    (game_start_time s) (konami_index s) (cheat_mode s).

Definition with_game_on (b : bool) (s : Session) : Session :=
  mkSession (speed s) (base_heading s) (color s) (player_id s) (is_running s)
    (calibration_mode s) b (last_battery_check s)
    (game_start_time s) (konami_index s) (cheat_mode s).

Definition with_last_battery_check (t : Q) (s : Session) : Session :=
  mkSession (speed s) (base_heading s) (color s) (player_id s) (is_running s)
    (calibration_mode s) (game_on s) t
    (game_start_time s) (konami_index s) (cheat_mode s).

Definition with_game_start_time (t : Q) (s : Session) : Session :=
  mkSession (speed s) (base_heading s) (color s) (player_id s) (is_running s)
    (calibration_mode s) (game_on s) (last_battery_check s)
    t (konami_index s) (cheat_mode s).

Definition with_konami_index (n : nat) (s : Session) : Session :=
  mkSession (speed s) (base_heading s) (color s) (player_id s) (is_running s)
    (calibration_mode s) (game_on s) (last_battery_check s)
    (game_start_time s) n (cheat_mode s).

Definition with_cheat_mode (b : bool) (s : Session) : Session :=
  mkSession (speed s) (base_heading s) (color s) (player_id s) (is_running s)
    (calibration_mode s) (game_on s) (last_battery_check s)
    (game_start_time s) (konami_index s) b.

(** *** Calling the robot *)

Definition record_call (c : Call) (ok : bool) (w : World) : World :=
  mkWorld (ses w) (trace w ++ [(c, ok)]) (out w).

(** A call that returns nothing. *)
Definition api (c : Call) : M unit :=
  fun e w =>
    if fails e (List.length (trace w))
    then (Raise ActuatorError, record_call c false w)
    else (Ret tt, record_call c true w).

(** A query: [read] selects the value the robot reports. *)
Definition api_read (c : Call) (read : Env -> Q) : M Q :=
  fun e w =>
    if fails e (List.length (trace w))
    then (Raise ActuatorError, record_call c false w)
    else (Ret (read e), record_call c true w).

(** [KONAMI_CODE[i]] for [i >= 0]. *)
Definition list_index (l : list Z) (i : nat) : M Z :=
  match nth_error l i with
  | Some v => ret v
  | None => raise IndexError
  end.

(** ** [SpheroController] *)

(** [__init__]; [t0] and [t1] are its two readings of [time.time()]. *)
Definition init (c : Color) (pid : Z) (t0 t1 : Q) : Session :=
  {| speed := 50;
     base_heading := 0;
     color := c;
     player_id := pid;
     is_running := true;
     calibration_mode := false;
     game_on := false;
     last_battery_check := t0;
     game_start_time := t1;
     konami_index := 0;
     cheat_mode := false |}.

Definition move (heading : Q) (spd : Z) : M unit :=
  api (SetHeading (Num.py_mod heading 360)) ;;
  api (SetSpeed spd).

Definition enter_calibration (x_axis : Q) : M unit :=
  modify (with_calibration_mode true) ;;
  api (SetSpeed 0) ;;
  api (SetFrontLed (RGB 255 0 0)) ;;
  (if Num.ltb x_axis (-0.7) then
     h <- get base_heading ;;
     modify (with_base_heading (Num.sub h HEADING_ADJUSTMENT))
   else if Num.gtb x_axis 0.7 then
     h <- get base_heading ;;
     modify (with_base_heading (Num.add h HEADING_ADJUSTMENT))
   else ret tt) ;;
  h <- get base_heading ;;
  api (SetHeading h) ;;
  print (MsgCalibrating h).

Definition exit_calibration : M unit :=
  modify (with_calibration_mode false) ;;
  api (SetFrontLed (RGB 0 255 0)) ;;
  h <- get base_heading ;;
  modify (with_base_heading (Num.py_mod h 360)) ;;
  modify (with_game_on true) ;;
  now <- ask clock ;;
  modify (with_game_start_time now) ;;
  print MsgCalibrationComplete.

Definition toggle_calibration (x_axis : Q) : M unit :=
  cal <- get calibration_mode ;;
  if negb cal then enter_calibration x_axis else exit_calibration.

(** The colour chosen from the voltage, lines 146-152. *)
Definition battery_color (voltage : Q) : Color :=
  let color := RGB 0 255 0 in
  let color := if Num.ltb voltage 4.1 then RGB 255 255 0 else color in
  let color := if Num.ltb voltage 3.9 then RGB 255 100 0 else color in
  let color := if Num.ltb voltage 3.7 then RGB 255 0 0 else color in
  color.

Definition check_battery : M unit :=
  try_except
    (voltage <- api_read GetBatteryVoltage voltage_reading ;;
     pid <- get player_id ;;
     print (MsgBattery pid voltage) ;;
     api (SetFrontLed (battery_color voltage)))
    (print MsgBatteryFailed).

Definition activate_cheat_mode : M unit :=
  modify (with_cheat_mode true) ;;
  modify (with_speed 255) ;;
  print MsgCheatActivated ;;
  api (SetFrontLed (RGB 255 0 255)).

(** The body of the loop of [check_konami_code] for a button that is
    held, lines 164-171. *)
Definition on_button_pressed (btn_id : Z) : M unit :=
  i <- get konami_index ;;
  expected_btn <- list_index KONAMI_CODE i ;;
  if Z.eqb btn_id expected_btn then
    modify (with_konami_index (S i)) ;;
    i' <- get konami_index ;;
    when (Nat.eqb i' (List.length KONAMI_CODE))
      (activate_cheat_mode ;;
       modify (with_konami_index 0))
  else
    modify (with_konami_index 0).

Definition check_konami_code : M unit :=
  for_each BUTTONS (fun '(btn_name, btn_id) =>
    pressed <- ask (fun e => get_button e btn_id) ;;
    when pressed (on_button_pressed btn_id)).

Definition display_number : M unit :=
  try_except
    (pid <- get player_id ;;
     c <- get color ;;
     api (SetMatrixCharacter (patterns_get LED_PATTERNS pid "?") c))
    (print MsgDisplayFailed).

(** ** The control loop *)

(** Lines 190-192. *)
Definition battery_step (current_time : Q) : M unit :=
  last <- get last_battery_check ;;
  when (Num.geb (Num.sub current_time last) BATTERY_CHECK_INTERVAL)
    (check_battery ;;
     modify (with_last_battery_check current_time)).

(** Lines 201-213. *)
Definition speed_presets : M unit :=
  cheat <- get cheat_mode ;;
  when (negb cheat)
    (b1 <- ask (fun e => get_button e (button "1")) ;;
     if b1 then
       modify (with_speed 50) ;; modify (with_color (RGB 255 200 0))
     else
       b2 <- ask (fun e => get_button e (button "2")) ;;
       if b2 then
         modify (with_speed 70) ;; modify (with_color (RGB 255 100 0))
       else
         b3 <- ask (fun e => get_button e (button "3")) ;;
         if b3 then
           modify (with_speed 100) ;; modify (with_color (RGB 255 50 0))
         else
           b4 <- ask (fun e => get_button e (button "4")) ;;
           if b4 then
             modify (with_speed 200) ;; modify (with_color (RGB 255 0 0))
           else ret tt).

(** Lines 216-225. *)
Definition movement_control (x_axis y_axis : Q) : M unit :=
  cal <- get calibration_mode ;;
  if cal then
    enter_calibration x_axis
  else if Num.gtb (Num.abs y_axis) 0.7 then
    h <- get base_heading ;;
    let heading := if Num.ltb y_axis 0 then h else Num.add h 180 in
    spd <- get speed ;;
    move heading spd
  else if Num.gtb (Num.abs x_axis) 0.7 then
    h <- get base_heading ;;
    let heading := Num.add h (if Num.gtb x_axis 0 then 22 else -22) in
    move heading 0
  else
    api (SetSpeed 0).

(** Lines 228-234. *)
Definition auto_straighten (x_axis y_axis : Q) : M unit :=
  cheat <- get cheat_mode ;;
  when (cheat && Num.gtb (Num.abs y_axis) 0.7 && Num.ltb (Num.abs x_axis) 0.2)
    (current_heading <- api_read GetHeading heading_reading ;;
     h <- get base_heading ;;
     let delta := Num.sub current_heading h in
     when (Num.gtb (Num.abs delta) 3)
       (let correction := Num.mul (Num.neg delta) 0.2 in
        h <- get base_heading ;;
        modify (with_base_heading (Num.add h correction)) ;;
        h' <- get base_heading ;;
        api (SetHeading h'))).

(** One iteration of the [while] loop, lines 187-236 (the final
    [time.sleep] has no effect on the state). *)
Definition tick : M unit :=
  current_time <- ask clock ;;
  battery_step current_time ;;
  x_axis <- ask axis0 ;;
  y_axis <- ask axis1 ;;
  check_konami_code ;;
  speed_presets ;;
  movement_control x_axis y_axis ;;
  auto_straighten x_axis y_axis ;;
  display_number.

(** How a finite prefix of the loop ended. *)
Inductive LoopResult :=
| StillRunning          (* the inputs ran out, the loop would go on *)
| Finished              (* [is_running] was found false *)
| Aborted (x : Exn).    (* an exception left the loop *)

(** [while self.is_running: ...] over the environments of successive
    ticks. *)
Fixpoint while_running (ticks : list Env) (w : World) : LoopResult * World :=
  match ticks with
  | [] => (if is_running (ses w) then StillRunning else Finished, w)
  | e :: rest =>
      if is_running (ses w) then
        match tick e w with
        | (Ret _, w') => while_running rest w'
        | (Raise x, w') => (Aborted x, w')
        end
      else (Finished, w)
  end.

(** [with self.api: body], line 183.  The context is entered first; if
    the entry raises, nothing else runs.  When the body has ended, by
    [is_running] or by an exception, the context is left.  An exception of
    the body is raised again after the exit call, unless the exit call
    raises itself (its exception takes over) or returns a true value
    ([swallow]), which ends the statement normally.  A body that is still
    running has not reached the exit. *)
Definition with_api (swallow : bool) (e0 : Env)
  (body : World -> LoopResult * World) (w : World) : LoopResult * World :=
  match api EnterApi e0 w with
  | (Raise x, w1) => (Aborted x, w1)
  | (Ret _, w1) =>
      match body w1 with
      | (StillRunning, w2) => (StillRunning, w2)
      | (Finished, w2) =>
          match api ExitApi e0 w2 with
          | (Ret _, w3) => (Finished, w3)
          | (Raise x, w3) => (Aborted x, w3)
          end
      | (Aborted x, w2) =>
          match api ExitApi e0 w2 with
          | (Ret _, w3) => if swallow then (Finished, w3) else (Aborted x, w3)
          | (Raise x', w3) => (Aborted x', w3)
          end
      end
  end.

(** [control_loop], lines 182-237.  The environment [e0] serves the entry
    into the API context, the first [display_number] and the exit;
    [swallow] tells whether the exit call returns a true value.  The
    result [Finished] stands for a normal return of the method. *)
Definition control_loop (swallow : bool) (e0 : Env) (ticks : list Env)
  (w : World) : LoopResult * World :=
  with_api swallow e0
    (fun w1 =>
       match display_number e0 w1 with
       | (Ret _, w') => while_running ticks w'
       | (Raise x, w') => (Aborted x, w')
       end) w.

(** ** Start-up: [discover_toy], [connect], [main] and the script body *)

(** What the start-up code finds outside the program. *)
Record Startup := mkStartup {
  joystick_count : Z;                  (* pygame.joystick.get_count() *)
  open_joystick : Z -> bool;           (* Joystick(id) and init() succeed *)
  find_toy : string -> option string;  (* scanner.find_toy, None = raises *)
  find_toys : list string;             (* scanner.find_toys() *)
  open_api : string -> bool;           (* SpheroEduAPI(toy) succeeds *)
  py_int : string -> option Z;         (* int(s), None = ValueError *)
  time0 : Q;                           (* time.time() in __init__ *)
  time1 : Q;
  env0 : Env;                          (* for the first display_number *)
  tick_envs : list Env;                (* for the ticks of the loop *)
  exit_swallows : bool                 (* api.__exit__ returns a true value *)
}.

(** A truthy [toy_name]: neither [None] nor the empty string. *)
Definition truthy (name : option string) : option string :=
  match name with
  | Some EmptyString => None
  | other => other
  end.

(** [discover_toy]: the lines printed and the resulting [self.toy]. *)
Definition discover_toy (st : Startup) (toy_name : option string)
  : list Msg * option string :=
  match truthy toy_name with
  | Some name =>
      match find_toy st name with
      | Some toy => ([MsgSearchingNamed name; MsgConnected], Some toy)
      | None => ([MsgSearchingNamed name; MsgDiscoverError], None)
      end
  | None =>
      match find_toys st with
      | toy :: _ => ([MsgSearchingNearest; MsgConnected], Some toy)
      | [] => ([MsgSearchingNearest; MsgDiscoverError], None)
      end
  end.

(** [connect]: the lines printed and whether an API object is returned. *)
Definition connect (st : Startup) (toy : option string) : list Msg * bool :=
  match toy with
  | None => ([MsgNoToy], false)
  | Some t =>
      if open_api st t then ([MsgApiConnected], true)
      else ([MsgConnectError], false)
  end.

(** What is observable of a run of the program. *)
Record Outcome := mkOutcome {
  printed : list Msg;
  uncaught : bool;           (* an exception reached the top level *)
  loop_entered : bool;       (* [control_loop] was called *)
  robot_calls : list Event;
  exit_status : Z
}.

Definition main (st : Startup) (toy_name : option string)
  (joystick_id player : Z) : Outcome :=
  if joystick_count st =? 0 then
    mkOutcome [MsgNoJoystick] false false [] 0
  else if negb (open_joystick st joystick_id) then
    mkOutcome [] true false [] 1
  else
    let sphero := init (RGB 255 0 0) player (time0 st) (time1 st) in
    let (msgs1, toy) := discover_toy st toy_name in
    let (msgs2, connected) := connect st toy in
    if connected then
      match control_loop (exit_swallows st) (env0 st) (tick_envs st)
              (mkWorld sphero [] (msgs1 ++ msgs2)) with
      | (Aborted _, w) => mkOutcome (out w) true true (trace w) 1
      | (_, w) => mkOutcome (out w) false true (trace w) 0
      end
    else
      mkOutcome (msgs1 ++ msgs2) false false [] 0.

(** The body under [if __name__ == "__main__"], lines 267-274. *)
Definition script (st : Startup) (argv : list string) : Outcome :=
  match argv with
  | _ :: toy_name :: a2 :: a3 :: _ =>
      match py_int st a2 with
      | None => mkOutcome [] true false [] 1
      | Some joystick_id =>
          match py_int st a3 with
          | None => mkOutcome [] true false [] 1
          | Some player =>
              let o := main st (Some toy_name) joystick_id player in
              mkOutcome (MsgConnecting toy_name joystick_id player :: printed o)
                (uncaught o) (loop_entered o) (robot_calls o) (exit_status o)
          end
      end
  | _ => mkOutcome [MsgUsage] false false [] 1
  end.


(** * Vocabulary of the properties *)

(** The colours the program shows on the front LED. *)
Definition led_green : Color := RGB 0 255 0.
Definition led_yellow : Color := RGB 255 255 0.
Definition led_orange : Color := RGB 255 100 0.
Definition led_red : Color := RGB 255 0 0.
Definition led_purple : Color := RGB 255 0 255.

(** [m] never leaves a world satisfying [J], however it ends. *)
Definition preserves {A} (J : World -> Prop) (m : M A) : Prop :=
  forall e w, J w -> J (snd (m e w)).

(** Number of times [activate_cheat_mode] has run, read off the console. *)
Fixpoint activations (l : list Msg) : nat :=
  match l with
  | [] => 0
  | MsgCheatActivated :: rest => S (activations rest)
  | _ :: rest => activations rest
  end.

(** Cheat mode is on and the speed is the maximum. *)
Definition pinned (s : Session) : Prop :=
  cheat_mode s = true /\ speed s = 255.

(** Either no activation happened since the console showed [n] of them,
    or the session is pinned. *)
Definition latched (n : nat) (w : World) : Prop :=
  activations (out w) = n \/ pinned (ses w).

(** *** Sample inputs *)

(** A freshly constructed controller, as [main] builds it. *)
Definition fresh : World :=
  mkWorld (init (RGB 255 0 0) 1 0 0) [] [].

(** Joystick at rest, no button held, every robot call succeeds. *)
Definition quiet : Env :=
  mkEnv (fun _ => false) 0 0 0 4.2 0 (fun _ => false).

(** Exactly button [b] held, otherwise as [quiet]. *)
Definition press (b : Z) : Env :=
  mkEnv (fun z => Z.eqb z b) 0 0 0 4.2 0 (fun _ => false).

(** The operations of [SpheroController] that act on a connected
    session. *)
Inductive Method :=
| CallMove (heading : Q) (spd : Z)
| CallToggleCalibration (x_axis : Q)
| CallEnterCalibration (x_axis : Q)
| CallExitCalibration
| CallCheckBattery
| CallCheckKonamiCode
| CallActivateCheatMode
| CallDisplayNumber
| CallTick.

Definition run_method (op : Method) : M unit :=
  match op with
  | CallMove heading spd => move heading spd
  | CallToggleCalibration x_axis => toggle_calibration x_axis
  | CallEnterCalibration x_axis => enter_calibration x_axis
  | CallExitCalibration => exit_calibration
  | CallCheckBattery => check_battery
  | CallCheckKonamiCode => check_konami_code
  | CallActivateCheatMode => activate_cheat_mode
  | CallDisplayNumber => display_number
  | CallTick => tick
  end.

(** A session one symbol short of the full sequence. *)
Definition almost : World :=
  snd (while_running (map press (firstn 9 KONAMI_CODE)) fresh).

(** *** Feeding the sequence detector *)

(** The identifiers the detector looks at. *)
Definition button_ids : list Z := map snd BUTTONS.

(** [check_konami_code] run once per tick, each tick with exactly one
    button held and a robot that answers. *)
Fixpoint feed (symbols : list Z) (w : World) : Res unit * World :=
  match symbols with
  | [] => (Ret tt, w)
  | b :: rest =>
      match check_konami_code (press b) w with
      | (Ret _, w') => feed rest w'
      | (Raise x, w') => (Raise x, w')
      end
  end.

(** [l] with [b] put in front of its element number [i]. *)
Definition insert_at (i : nat) (b : Z) (l : list Z) : list Z :=
  firstn i l ++ b :: skipn i l.

(** The two numbers the detector's properties speak about: the cursor and
    the number of completions so far. *)
Definition detector_view (w : World) : nat * nat :=
  (konami_index (ses w), activations (out w)).

(** The effect of one held button on [detector_view], used to follow
    [feed] through a whole sequence. *)
Definition detector_step (v : nat * nat) (b : Z) : nat * nat :=
  let (i, n) := v in
  match nth_error KONAMI_CODE i with
  | Some k =>
      if Z.eqb b k then
        if Nat.eqb (S i) (List.length KONAMI_CODE) then (0%nat, S n)
        else (S i, n)
      else (0%nat, n)
  | None => v
  end.

(** *** Sample sessions for headings *)

(** A session in cheat mode: [almost] after the last symbol. *)
Definition cheating : World := snd (tick (press 15) almost).

(** Stick pushed straight forward while the robot reports heading 10. *)
Definition drifting : Env :=
  mkEnv (fun _ => false) 0 (-1) 0 4.2 10 (fun _ => false).

(** A session in calibration whose heading was trimmed below zero. *)
Definition trimmed : World :=
  snd (enter_calibration (-1) quiet
         (snd (toggle_calibration (-1) quiet fresh))).

(** The front LED as the robot last accepted it. *)
Definition front_led (t : list Event) : option Color :=
  fold_left (fun led ev =>
               match ev with
               | (SetFrontLed c, true) => Some c
               | _ => led
               end) t None.

(** A session calibrated to heading 90 at the first preset speed. *)
Definition facing_east : World :=
  mkWorld (with_base_heading 90 (init (RGB 255 0 0) 1 0 0)) [] [].

(** The clock is 31 seconds past the last battery check and the first
    robot call of the tick, the voltage read, fails. *)
Definition dead_battery_line : Env :=
  mkEnv (fun _ => false) 0 0 31 4.2 0 (fun n => Nat.eqb n 0).

(** The first robot call of the tick fails; the joystick is at rest. *)
Definition stalled : Env :=
  mkEnv (fun _ => false) 0 0 0 4.2 0 (fun n => Nat.eqb n 0).

(** *** Exceptions that leave a tick *)

(** The calls the control loop makes outside any [try]. *)
Definition unguarded_call (c : Call) : bool :=
  match c with
  | SetHeading _ | SetSpeed _ | SetFrontLed _ | GetHeading => true
  | EnterApi | ExitApi => true
  | SetMatrixCharacter _ _ | GetBatteryVoltage => false
  end.

(** The exception is a robot failure and the last event of the trace is
    the failed call, one of the unguarded kinds. *)
Definition escapes (x : Exn) (w : World) : Prop :=
  x = ActuatorError /\
  exists t c, trace w = t ++ [(c, false)] /\ unguarded_call c = true.

(** The cursor of the detector points into the sequence. *)
Definition cursor_ok (s : Session) : Prop :=
  (konami_index s < List.length KONAMI_CODE)%nat.

(** From a session with a valid cursor, [m] either returns with a valid
    cursor or raises as [escapes] describes. *)
Definition guarded {A} (m : M A) : Prop :=
  forall e w,
    cursor_ok (ses w) ->
    match m e w with
    | (Ret _, w') => cursor_ok (ses w')
    | (Raise x, w') => escapes x w'
    end.

(** Every button held, joystick centred, robot answering. *)
Definition all_held : Env :=
  mkEnv (fun _ => true) 0 0 0 4.2 0 (fun _ => false).

(** *** Sample start-up situations *)

Definition sample_int (s : string) : option Z :=
  if String.eqb s "0" then Some 0
  else if String.eqb s "1" then Some 1
  else None.

(** A robot is in range and answers, but no joystick is plugged in. *)
Definition no_joystick : Startup :=
  mkStartup 0 (fun _ => false) (fun name => Some name) ["SB-1234"%string]
    (fun _ => true) sample_int 0 0 quiet [quiet] false.

(** A joystick is present but no robot is found. *)
Definition nothing_in_range : Startup :=
  mkStartup 1 (fun _ => true) (fun _ => None) [] (fun _ => true)
    sample_int 0 0 quiet [quiet] false.

(** The command line [prog SB-1234 0 1]. *)
Definition sample_argv : list string :=
  ["driveWithJoystick.py"; "SB-1234"; "0"; "1"]%string.

(** The decimal digit [d] as a one-character string. *)
Definition digit_string (d : Z) : string :=
  String (Ascii.ascii_of_nat (48 + Z.to_nat d)) EmptyString.

(** Button A is the only known button held and the robot's next call,
    issued when the trace holds 18 events, fails. *)
Definition last_symbol_led_down : Env :=
  mkEnv (fun z => Z.eqb z 15) 0 0 0 4.2 0 (fun n => Nat.eqb n 18).

(** *** Pieces of a tick and speeds *)

(** A tick up to, but without, its final display refresh. *)
Definition tick_before_display : M unit :=
  current_time <- ask clock ;;
  battery_step current_time ;;
  x_axis <- ask axis0 ;;
  y_axis <- ask axis1 ;;
  check_konami_code ;;
  speed_presets ;;
  movement_control x_axis y_axis ;;
  auto_straighten x_axis y_axis.

(** The speeds of the four presets. *)
Definition preset_speed (v : Z) : Prop :=
  v = 50 \/ v = 70 \/ v = 100 \/ v = 200.

(** The session's speed is a preset speed while cheat mode is off and 255
    once it is on. *)
Definition speed_ok (s : Session) : Prop :=
  (cheat_mode s = false /\ preset_speed (speed s)) \/
  (cheat_mode s = true /\ speed s = 255).

(** Every speed sent to the robot is 0, a preset speed or 255. *)
Definition speeds_sent_ok (t : list Event) : Prop :=
  forall v ok, In (SetSpeed v, ok) t -> v = 0 \/ preset_speed v \/ v = 255.

(** The named robot is not found although another robot is in range. *)
Definition wrong_name : Startup :=
  mkStartup 1 (fun _ => true) (fun _ => None) ["SB-9999"%string]
    (fun _ => true) sample_int 0 0 quiet [quiet] false.

(** *** Failures that the loop catches *)

(** A battery voltage read that returned: the next robot call is the LED
    call of [check_battery]. *)
Definition read_ok (ev : Event) : bool :=
  match ev with
  | (GetBatteryVoltage, true) => true
  | _ => false
  end.

(** The calls made inside a [try]: the battery voltage read, the display
    call, and the front-LED call that directly follows a battery read that
    returned. *)
Definition caught_call (after_read : bool) (c : Call) : bool :=
  match c with
  | GetBatteryVoltage | SetMatrixCharacter _ _ => true
  | SetFrontLed _ => after_read
  | _ => false
  end.

(** Every failed call of [t] is one made inside a [try]; [after_read]
    tells whether the event before [t] was a battery read that
    returned. *)
Fixpoint only_caught (after_read : bool) (t : list Event) : bool :=
  match t with
  | [] => true
  | (c, ok) :: rest =>
      (ok || caught_call after_read c) && only_caught (read_ok (c, ok)) rest
  end.

(** Whether [t] ends with a battery read that returned. *)
Definition ends_with_read (a : bool) (t : list Event) : bool :=
  fold_left (fun _ ev => read_ok ev) t a.

(** The calls recorded since [t0] had no uncaught failure, the last of
    them is not a pending battery read, and the cursor is valid. *)
Definition tidy (t0 : list Event) (w : World) : Prop :=
  cursor_ok (ses w) /\
  exists t, trace w = t0 ++ t /\
            only_caught false t = true /\ ends_with_read false t = false.

(** The calls recorded since [t0] contain a failure made outside any
    [try]. *)
Definition broken (t0 : list Event) (w : World) : Prop :=
  exists t, trace w = t0 ++ t /\ only_caught false t = false.

(** From a tidy world [m] returns in a tidy world or raises a robot
    failure in a broken one. *)
Definition isolates {A} (t0 : list Event) (m : M A) : Prop :=
  forall e w,
    tidy t0 w ->
    match m e w with
    | (Ret _, w') => tidy t0 w'
    | (Raise x, w') => x = ActuatorError /\ broken t0 w'
    end.

(** * Properties *)

(** ** Comparisons and the remainder *)

Lemma ltb_lt (x y : Q) : Num.ltb x y = true <-> (x < y)%Q.
Proof.
  unfold Num.ltb. rewrite negb_true_iff.
  destruct (Qle_bool y x) eqn:E.
  - apply Qle_bool_iff in E. split; [discriminate | intros H; lra].
  - split; [intros _ | reflexivity].
    destruct (Qlt_le_dec x y) as [H | H]; [exact H |].
    apply Qle_bool_iff in H. congruence.
Qed.

Lemma ltb_ge (x y : Q) : Num.ltb x y = false <-> (y <= x)%Q.
Proof.
  unfold Num.ltb. rewrite negb_false_iff. apply Qle_bool_iff.
Qed.

Lemma gtb_gt (x y : Q) : Num.gtb x y = true <-> (y < x)%Q.
Proof. unfold Num.gtb. apply ltb_lt. Qed.

Lemma gtb_le (x y : Q) : Num.gtb x y = false <-> (x <= y)%Q.
Proof. unfold Num.gtb. apply ltb_ge. Qed.

Lemma geb_ge (x y : Q) : Num.geb x y = true <-> (y <= x)%Q.
Proof. unfold Num.geb. apply Qle_bool_iff. Qed.

Lemma geb_lt (x y : Q) : Num.geb x y = false <-> (x < y)%Q.
Proof.
  unfold Num.geb. destruct (Qle_bool y x) eqn:E.
  - apply Qle_bool_iff in E. split; [discriminate | intros H; lra].
  - split; [intros _ | reflexivity].
    destruct (Qlt_le_dec x y) as [H | H]; [exact H |].
    apply Qle_bool_iff in H. congruence.
Qed.

Lemma add_eq (x y : Q) : (Num.add x y == x + y)%Q.
Proof. apply Qred_correct. Qed.

Lemma sub_eq (x y : Q) : (Num.sub x y == x - y)%Q.
Proof. apply Qred_correct. Qed.

(** ** Battery monitor *)

Lemma battery_color_bands (v : Q) :
  (battery_color v = led_green <-> 4.1 <= v)%Q /\
  (battery_color v = led_yellow <-> 3.9 <= v /\ v < 4.1)%Q /\
  (battery_color v = led_orange <-> 3.7 <= v /\ v < 3.9)%Q /\
  (battery_color v = led_red <-> v < 3.7)%Q.
Proof.
  unfold battery_color, led_green, led_yellow, led_orange, led_red.
  destruct (Num.ltb v 4.1) eqn:E1;
    destruct (Num.ltb v 3.9) eqn:E2;
    destruct (Num.ltb v 3.7) eqn:E3;
    repeat match goal with
           | H : Num.ltb _ _ = true |- _ => apply ltb_lt in H
           | H : Num.ltb _ _ = false |- _ => apply ltb_ge in H
           end;
    repeat split; intros; try discriminate; try lra.
Qed.

(** What [check_battery] does when the voltage read returns: the front
    LED is asked to show [battery_color] of the reading. *)
Lemma check_battery_read_ok (e : Env) (w : World) :
  fails e (List.length (trace w)) = false ->
  trace (snd (check_battery e w)) =
    trace w ++ [ (GetBatteryVoltage, true);
                 (SetFrontLed (battery_color (voltage_reading e)),
                  negb (fails e (S (List.length (trace w))))) ].
Proof.
  intros Hread.
  unfold check_battery, try_except, bind, api_read, api, get, print.
  rewrite Hread. cbn.
  rewrite length_app, Nat.add_comm. cbn.
  destruct (fails e (S (List.length (trace w)))); cbn;
    rewrite <- app_assoc; reflexivity.
Qed.

(** C2.  For every voltage [v] returned by the battery read,
    [check_battery] asks the front LED for a colour that is green iff
    [v >= 4.1], yellow iff [3.9 <= v < 4.1], orange iff
    [3.7 <= v < 3.9] and red iff [v < 3.7]; the later (lower) tests
    overwrite the earlier ones. *)
Theorem check_battery_bands (e : Env) (w : World) :
  fails e (List.length (trace w)) = false ->
  exists c ok,
    trace (snd (check_battery e w)) =
      trace w ++ [(GetBatteryVoltage, true); (SetFrontLed c, ok)] /\
    (c = led_green <-> 4.1 <= voltage_reading e)%Q /\
    (c = led_yellow <->
       3.9 <= voltage_reading e /\ voltage_reading e < 4.1)%Q /\
    (c = led_orange <->
       3.7 <= voltage_reading e /\ voltage_reading e < 3.9)%Q /\
    (c = led_red <-> voltage_reading e < 3.7)%Q.
Proof.
  intros Hread.
  exists (battery_color (voltage_reading e)).
  exists (negb (fails e (S (List.length (trace w))))).
  split.
  - apply check_battery_read_ok; exact Hread.
  - apply battery_color_bands.
Qed.

Lemma check_battery_bands_witness :
  exists c ok,
    trace (snd (check_battery quiet fresh)) =
      trace fresh ++ [(GetBatteryVoltage, true); (SetFrontLed c, ok)] /\
    (c = led_green <-> 4.1 <= voltage_reading quiet)%Q /\
    (c = led_yellow <->
       3.9 <= voltage_reading quiet /\ voltage_reading quiet < 4.1)%Q /\
    (c = led_orange <->
       3.7 <= voltage_reading quiet /\ voltage_reading quiet < 3.9)%Q /\
    (c = led_red <-> voltage_reading quiet < 3.7)%Q.
Proof. apply (check_battery_bands quiet fresh). reflexivity. Defined.

(** ** Invariants of monadic code *)

Section Preservation.

Variable J : World -> Prop.

Lemma preserves_ret {A} (a : A) : preserves J (ret a).
Proof. intros e w H. exact H. Qed.

Lemma preserves_raise {A} (x : Exn) : preserves J (@raise A x).
Proof. intros e w H. exact H. Qed.

Lemma preserves_bind {A B} (m : M A) (f : A -> M B) :
  preserves J m -> (forall a, preserves J (f a)) -> preserves J (bind m f).
Proof.
  intros Hm Hf e w H. unfold bind.
  specialize (Hm e w H).
  destruct (m e w) as [[a | x] w']; cbn in *.
  - apply Hf; exact Hm.
  - exact Hm.
Qed.

Lemma preserves_try {A} (m h : M A) :
  preserves J m -> preserves J h -> preserves J (try_except m h).
Proof.
  intros Hm Hh e w H. unfold try_except.
  specialize (Hm e w H).
  destruct (m e w) as [[a | x] w']; cbn in *.
  - exact Hm.
  - apply Hh; exact Hm.
Qed.

Lemma preserves_when (c : bool) (m : M unit) :
  preserves J m -> preserves J (when c m).
Proof.
  intros Hm. destruct c; cbn; [exact Hm | apply preserves_ret].
Qed.

Lemma preserves_for_each {A} (l : list A) (body : A -> M unit) :
  (forall x, preserves J (body x)) -> preserves J (for_each l body).
Proof.
  intros Hbody. induction l as [| x rest IH]; cbn.
  - apply preserves_ret.
  - apply preserves_bind; [apply Hbody | intros _; exact IH].
Qed.

Lemma preserves_get {A} (f : Session -> A) : preserves J (get f).
Proof. intros e w H. exact H. Qed.

Lemma preserves_ask {A} (f : Env -> A) : preserves J (ask f).
Proof. intros e w H. exact H. Qed.

Lemma preserves_list_index (l : list Z) (i : nat) :
  preserves J (list_index l i).
Proof.
  unfold list_index. destruct (nth_error l i);
    [apply preserves_ret | apply preserves_raise].
Qed.

Lemma preserves_modify (f : Session -> Session) :
  (forall w, J w -> J (mkWorld (f (ses w)) (trace w) (out w))) ->
  preserves J (modify f).
Proof. intros Hf e w H. apply Hf; exact H. Qed.

Lemma preserves_print (m : Msg) :
  (forall w, J w -> J (mkWorld (ses w) (trace w) (out w ++ [m]))) ->
  preserves J (print m).
Proof. intros Hm e w H. apply Hm; exact H. Qed.

(** Robot calls only extend the trace. *)
Hypothesis J_trace :
  forall w c ok, J w -> J (record_call c ok w).

Lemma preserves_api (c : Call) : preserves J (api c).
Proof.
  intros e w H. unfold api.
  destruct (fails e (List.length (trace w))); apply J_trace; exact H.
Qed.

Lemma preserves_api_read (c : Call) (read : Env -> Q) :
  preserves J (api_read c read).
Proof.
  intros e w H. unfold api_read.
  destruct (fails e (List.length (trace w))); apply J_trace; exact H.
Qed.

End Preservation.

(** Breaks a method body down to its session updates and prints. *)
Ltac preserve_step :=
  match goal with
  | |- preserves _ (bind _ _) => apply preserves_bind; [| intros ?]
  | |- preserves _ (try_except _ _) => apply preserves_try
  | |- preserves _ (when _ _) => apply preserves_when
  | |- preserves _ (for_each _ _) => apply preserves_for_each; intros [? ?]
  | |- preserves _ (ret _) => apply preserves_ret
  | |- preserves _ (get _) => apply preserves_get
  | |- preserves _ (ask _) => apply preserves_ask
  | |- preserves _ (list_index _ _) => apply preserves_list_index
  | |- preserves _ (api _) => apply preserves_api
  | |- preserves _ (api_read _ _) => apply preserves_api_read
  | |- preserves _ (modify _) => apply preserves_modify
  | |- preserves _ (print _) => apply preserves_print
  | |- preserves _ (if ?c then _ else _) => destruct c
  end.

Ltac preserve := repeat preserve_step.

Lemma preserves_while_running (J : World -> Prop) :
  preserves J tick ->
  forall (ticks : list Env) (w : World),
    J w -> J (snd (while_running ticks w)).
Proof.
  intros Htick ticks.
  induction ticks as [| e rest IH]; intros w H; cbn [while_running].
  - destruct (is_running (ses w)); exact H.
  - destruct (is_running (ses w)); [| exact H].
    specialize (Htick e w H).
    destruct (tick e w) as [[[] | x] w']; cbn [snd] in *.
    + apply IH; exact Htick.
    + exact Htick.
Qed.

(** ** The cheat-mode latch *)

Lemma activations_app (l1 l2 : list Msg) :
  activations (l1 ++ l2) = (activations l1 + activations l2)%nat.
Proof.
  induction l1 as [| m rest IH]; cbn; [reflexivity |].
  destruct m; cbn; rewrite ?IH; reflexivity.
Qed.

(** Unfolds a method of the controller down to the monad's primitives,
    keeping [activate_cheat_mode] and [speed_presets] folded. *)
Ltac unfold_methods :=
  unfold run_method, tick, battery_step, movement_control, auto_straighten,
    display_number, check_konami_code, on_button_pressed, check_battery,
    toggle_calibration,
    exit_calibration, enter_calibration, move.

(** No operation clears [cheat_mode]. *)
Lemma cheat_mode_kept (op : Method) :
  preserves (fun w => cheat_mode (ses w) = true) (run_method op).
Proof.
  destruct op; unfold_methods; unfold speed_presets, activate_cheat_mode;
    preserve; cbn; intros; auto.
Qed.

Lemma pinned_speed_presets : preserves (fun w => pinned (ses w)) speed_presets.
Proof.
  intros e w [Hc Hs]. unfold speed_presets, bind, get.
  cbn. rewrite Hc. cbn. split; assumption.
Qed.

Lemma pinned_activate :
  preserves (fun w => pinned (ses w)) activate_cheat_mode.
Proof.
  unfold activate_cheat_mode; preserve; unfold pinned; cbn; intros; tauto.
Qed.

Lemma pinned_tick : preserves (fun w => pinned (ses w)) tick.
Proof.
  unfold_methods; preserve;
    try apply pinned_speed_presets; try apply pinned_activate;
    unfold pinned; cbn; intros; auto.
Qed.

Lemma latched_speed_presets (n : nat) : preserves (latched n) speed_presets.
Proof.
  intros e w H. unfold speed_presets, bind, get. cbn.
  destruct (cheat_mode (ses w)) eqn:Hc; cbn; [exact H |].
  destruct H as [H | [H _]]; [| congruence].
  unfold ask, modify, bind; cbn.
  repeat match goal with
         | |- context [if ?c then _ else _] => destruct c; cbn
         end; left; exact H.
Qed.

Lemma latched_activate (n : nat) : preserves (latched n) activate_cheat_mode.
Proof.
  intros e w _. unfold activate_cheat_mode, bind, modify, print, api. cbn.
  destruct (fails e _); cbn; right; split; reflexivity.
Qed.

Lemma latched_tick (n : nat) : preserves (latched n) tick.
Proof.
  unfold_methods; preserve;
    try apply latched_speed_presets; try apply latched_activate;
    unfold latched, pinned; cbn; intros; try assumption;
    rewrite ?activations_app, ?Nat.add_0_r; cbn; rewrite ?Nat.add_0_r;
    assumption.
Qed.

(** C1.  If a tick completes the Konami sequence (it runs
    [activate_cheat_mode]), then after that tick, and after any number of
    further ticks with any input, [cheat_mode] is true and [speed] is 255,
    so the preset buttons no longer change the speed; and no operation of
    the controller ever sets [cheat_mode] back to false. *)
Theorem cheat_mode_latch (e : Env) (w : World) :
  activations (out (snd (tick e w))) <> activations (out w) ->
  pinned (ses (snd (tick e w))) /\
  (forall later : list Env,
      pinned (ses (snd (while_running later (snd (tick e w)))))) /\
  (forall (op : Method) (e' : Env) (w' : World),
      cheat_mode (ses w') = true ->
      cheat_mode (ses (snd (run_method op e' w'))) = true).
Proof.
  intros Hact.
  assert (Hp : pinned (ses (snd (tick e w)))).
  { destruct (latched_tick (activations (out w)) e w) as [H | H].
    - left; reflexivity.
    - contradiction.
    - exact H. }
  split; [exact Hp |]. split.
  - intros later.
    apply (preserves_while_running (fun w => pinned (ses w)) pinned_tick).
    exact Hp.
  - intros op e' w'. apply (cheat_mode_kept op).
Qed.

Lemma cheat_mode_latch_witness :
  activations (out (snd (tick (press 15) almost)))
    <> activations (out almost) /\
  pinned (ses (snd (tick (press 15) almost))) /\
  (forall later : list Env,
      pinned (ses (snd (while_running later
                          (snd (tick (press 15) almost)))))) /\
  (forall (op : Method) (e' : Env) (w' : World),
      cheat_mode (ses w') = true ->
      cheat_mode (ses (snd (run_method op e' w'))) = true).
Proof.
  assert (H : activations (out (snd (tick (press 15) almost)))
              <> activations (out almost))
    by (vm_compute; discriminate).
  split; [exact H | apply (cheat_mode_latch (press 15) almost H)].
Defined.

(** ** The sequence detector *)

(** With exactly one of the known buttons held, the loop over [BUTTONS]
    runs the body once, for that button. *)
Lemma check_konami_code_press (b : Z) (w : World) :
  In b button_ids ->
  check_konami_code (press b) w = on_button_pressed b (press b) w.
Proof.
  intros Hb. unfold button_ids in Hb. cbn in Hb.
  repeat (destruct Hb as [<- | Hb]; [
    cbv -[on_button_pressed];
    match goal with
    | |- context [on_button_pressed ?b ?e ?w] =>
        destruct (on_button_pressed b e w) as [[[] | x] w']; reflexivity
    end |]).
  contradiction.
Qed.

(** One held button moves the cursor and the completion count as
    [detector_step] says, and the detector returns normally. *)
Lemma check_konami_code_step (b : Z) (w : World) :
  In b button_ids ->
  (konami_index (ses w) < List.length KONAMI_CODE)%nat ->
  fst (check_konami_code (press b) w) = Ret tt /\
  detector_view (snd (check_konami_code (press b) w))
    = detector_step (detector_view w) b.
Proof.
  intros Hb Hi. rewrite (check_konami_code_press b w Hb).
  unfold detector_view, detector_step, on_button_pressed, bind, get,
    list_index.
  destruct (nth_error KONAMI_CODE (konami_index (ses w))) as [k |] eqn:Hk.
  2: { apply nth_error_None in Hk. lia. }
  cbn [ret]. destruct (Z.eqb b k); [| split; reflexivity].
  cbn [modify ses konami_index with_konami_index fst snd].
  destruct (Nat.eqb (S (konami_index (ses w))) (List.length KONAMI_CODE));
    cbn; rewrite ?activations_app; cbn; rewrite ?Nat.add_0_r, ?Nat.add_1_r;
    split; reflexivity.
Qed.

Lemma detector_step_bound (v : nat * nat) (b : Z) :
  (fst v < List.length KONAMI_CODE)%nat ->
  (fst (detector_step v b) < List.length KONAMI_CODE)%nat.
Proof.
  destruct v as [i n]. unfold detector_step. intros Hi.
  destruct (nth_error KONAMI_CODE i); [| exact Hi].
  destruct (Z.eqb b z); [| cbn; lia].
  destruct (Nat.eqb (S i) (List.length KONAMI_CODE)) eqn:E; cbn in *.
  - lia.
  - apply Nat.eqb_neq in E. lia.
Qed.

(** [feed] follows [detector_step] symbol by symbol. *)
Lemma feed_view (symbols : list Z) :
  forall w : World,
    Forall (fun b => In b button_ids) symbols ->
    (konami_index (ses w) < List.length KONAMI_CODE)%nat ->
    fst (feed symbols w) = Ret tt /\
    detector_view (snd (feed symbols w))
      = fold_left detector_step symbols (detector_view w).
Proof.
  induction symbols as [| b rest IH]; intros w Hall Hi.
  - split; reflexivity.
  - inversion Hall as [| ? ? Hb Hrest]; subst.
    destruct (check_konami_code_step b w Hb Hi) as [Hret Hview].
    cbn [feed fold_left].
    destruct (check_konami_code (press b) w) as [[[] | x] w'];
      cbn [fst snd] in *; [| discriminate].
    rewrite <- Hview. apply IH; [exact Hrest |].
    pose proof (detector_step_bound (detector_view w) b Hi) as Hb'.
    rewrite <- Hview in Hb'. exact Hb'.
Qed.

Lemma konami_code_buttons : Forall (fun b => In b button_ids) KONAMI_CODE.
Proof.
  unfold KONAMI_CODE.
  repeat (apply Forall_cons; [vm_compute; tauto |]). apply Forall_nil.
Qed.

Lemma in_firstn {A} (n : nat) (l : list A) (x : A) :
  In x (firstn n l) -> In x l.
Proof.
  intros H. rewrite <- (firstn_skipn n l). apply in_or_app. left; exact H.
Qed.

Lemma in_skipn {A} (n : nat) (l : list A) (x : A) :
  In x (skipn n l) -> In x l.
Proof.
  intros H. rewrite <- (firstn_skipn n l). apply in_or_app. right; exact H.
Qed.

Lemma insert_at_buttons (i : nat) (b : Z) :
  In b button_ids ->
  Forall (fun x => In x button_ids) (insert_at i b KONAMI_CODE).
Proof.
  intros Hb. unfold insert_at. apply Forall_app. split.
  - apply Forall_forall. intros x Hx. apply in_firstn in Hx.
    exact (proj1 (Forall_forall _ _) konami_code_buttons x Hx).
  - constructor; [exact Hb |].
    apply Forall_forall. intros x Hx. apply in_skipn in Hx.
    exact (proj1 (Forall_forall _ _) konami_code_buttons x Hx).
Qed.

Lemma prefix_buttons (i : nat) (b : Z) :
  In b button_ids ->
  Forall (fun x => In x button_ids) (firstn i KONAMI_CODE ++ [b]).
Proof.
  intros Hb. apply Forall_app. split.
  - apply Forall_forall. intros x Hx. apply in_firstn in Hx.
    exact (proj1 (Forall_forall _ _) konami_code_buttons x Hx).
  - constructor; [exact Hb | constructor].
Qed.

(** The detector's arithmetic, case by case over the 9 inner positions and
    the 16 buttons. *)
Lemma detector_wrong_symbol (n i : nat) (b : Z) :
  (0 < i < 10)%nat ->
  In b button_ids ->
  nth_error KONAMI_CODE i <> Some b ->
  fold_left detector_step (insert_at i b KONAMI_CODE) (0%nat, n)
    = (fst (fold_left detector_step (insert_at i b KONAMI_CODE) (0%nat, n)), n)
  /\ fold_left detector_step (firstn i KONAMI_CODE ++ [b]) (0%nat, n)
    = (0%nat, n).
Proof.
  intros Hi Hb Hwrong.
  do 10 (destruct i as [| i]; [
    try lia;
    unfold button_ids in Hb; cbn in Hb;
    repeat (destruct Hb as [<- | Hb];
            [ first [ exfalso; apply Hwrong; reflexivity
                    | split; reflexivity ] |]);
    contradiction |]).
  lia.
Qed.

(** The part of C3 that holds as stated: the exact sequence, one symbol per
    tick, completes exactly once and leaves the cursor at 0. *)
Lemma detector_exact_sequence (w : World) :
  konami_index (ses w) = 0%nat ->
  fst (feed KONAMI_CODE w) = Ret tt /\
  activations (out (snd (feed KONAMI_CODE w))) = S (activations (out w)) /\
  konami_index (ses (snd (feed KONAMI_CODE w))) = 0%nat.
Proof.
  intros H0.
  destruct (feed_view KONAMI_CODE w konami_code_buttons) as [Hret Hview].
  { rewrite H0. cbn. lia. }
  split; [exact Hret |].
  unfold detector_view in Hview. rewrite H0 in Hview.
  change (fold_left detector_step KONAMI_CODE (0%nat, activations (out w)))
    with (0%nat, S (activations (out w))) in Hview.
  inversion Hview as [[Hidx Hact]]. split; reflexivity.
Qed.

(** C3, as amended.  From a cursor at 0: feeding exactly the 10-element
    sequence, one held button per tick, completes exactly once and leaves
    the cursor at 0; feeding it with one wrong button inserted strictly
    inside (after the first and before the last element) completes zero
    times, and the cursor is 0 right after the tick of the wrong button. *)
Theorem detector_sequence (w : World) (i : nat) (b : Z) :
  konami_index (ses w) = 0%nat ->
  (0 < i < 10)%nat ->
  In b button_ids ->
  nth_error KONAMI_CODE i <> Some b ->
  (fst (feed KONAMI_CODE w) = Ret tt /\
   activations (out (snd (feed KONAMI_CODE w))) = S (activations (out w)) /\
   konami_index (ses (snd (feed KONAMI_CODE w))) = 0%nat) /\
  (fst (feed (insert_at i b KONAMI_CODE) w) = Ret tt /\
   activations (out (snd (feed (insert_at i b KONAMI_CODE) w)))
     = activations (out w) /\
   konami_index (ses (snd (feed (firstn i KONAMI_CODE ++ [b]) w))) = 0%nat).
Proof.
  intros H0 Hi Hb Hwrong.
  split; [apply detector_exact_sequence; exact H0 |].
  assert (Hlt : (konami_index (ses w) < List.length KONAMI_CODE)%nat)
    by (rewrite H0; cbn; lia).
  destruct (feed_view _ w (insert_at_buttons i b Hb) Hlt) as [Hret Hview].
  destruct (feed_view _ w (prefix_buttons i b Hb) Hlt) as [_ Hprefix].
  destruct (detector_wrong_symbol (activations (out w)) i b Hi Hb Hwrong)
    as [Hall Hpre].
  unfold detector_view in Hview, Hprefix. rewrite H0 in Hview, Hprefix.
  rewrite Hall in Hview. rewrite Hpre in Hprefix.
  inversion Hview as [[Hidx Hact]]. inversion Hprefix as [[Hidx' Hact']].
  repeat split; assumption.
Qed.

Lemma detector_sequence_witness :
  konami_index (ses fresh) = 0%nat /\
  (0 < 4 < 10)%nat /\
  In 14 button_ids /\
  nth_error KONAMI_CODE 4 <> Some 14 /\
  (fst (feed KONAMI_CODE fresh) = Ret tt /\
   activations (out (snd (feed KONAMI_CODE fresh)))
     = S (activations (out fresh)) /\
   konami_index (ses (snd (feed KONAMI_CODE fresh))) = 0%nat) /\
  (fst (feed (insert_at 4 14 KONAMI_CODE) fresh) = Ret tt /\
   activations (out (snd (feed (insert_at 4 14 KONAMI_CODE) fresh)))
     = activations (out fresh) /\
   konami_index (ses (snd (feed (firstn 4 KONAMI_CODE ++ [14]) fresh)))
     = 0%nat).
Proof.
  assert (H0 : konami_index (ses fresh) = 0%nat) by reflexivity.
  assert (Hi : (0 < 4 < 10)%nat) by lia.
  assert (Hb : In 14 button_ids) by (vm_compute; tauto).
  assert (Hw : nth_error KONAMI_CODE 4 <> Some 14)
    by (vm_compute; discriminate).
  do 4 (split; [assumption |]).
  apply (detector_sequence fresh 4 14 H0 Hi Hb Hw).
Defined.

(** C3 as stated fails at the ends.  A wrong button held before the first
    element only resets a cursor that is already 0, and the complete
    sequence that follows fires one completion. *)
Lemma wrong_symbol_in_front_completes :
  konami_index (ses fresh) = 0%nat /\
  In 14 button_ids /\
  nth_error KONAMI_CODE 0 <> Some 14 /\
  insert_at 0 14 KONAMI_CODE
    = [14; 10; 10; 11; 11; 12; 13; 12; 13; 14; 15] /\
  activations (out fresh) = 0%nat /\
  activations (out (snd (feed (insert_at 0 14 KONAMI_CODE) fresh))) = 1%nat.
Proof.
  split; [reflexivity |]. split; [vm_compute; tauto |].
  split; [vm_compute; discriminate |]. repeat split; reflexivity.
Qed.

(** Likewise for a button held after the last element: the completion has
    already fired. *)
Lemma wrong_symbol_at_end_completes :
  insert_at 10 14 KONAMI_CODE
    = [10; 10; 11; 11; 12; 13; 12; 13; 14; 15; 14] /\
  activations (out (snd (feed (insert_at 10 14 KONAMI_CODE) fresh))) = 1%nat.
Proof. split; reflexivity. Qed.

(** ** Normalisation of [base_heading] *)

Lemma floor_int_360 (n : Z) : Qfloor (inject_Z n / 360) = n / 360.
Proof.
  unfold Qfloor, Qdiv, Qmult, Qinv, inject_Z. cbn.
  rewrite Z.mul_1_r. reflexivity.
Qed.

Lemma Qred_int (n : Z) : Qred (inject_Z n) = inject_Z n.
Proof.
  unfold Qred, inject_Z.
  pose proof (Z.ggcd_gcd n 1) as Hg.
  pose proof (Z.ggcd_correct_divisors n 1) as Hd.
  destruct (Z.ggcd n 1) as [g [a b]]. cbn [fst snd] in *.
  rewrite Z.gcd_1_r in Hg. subst g. destruct Hd as [Ha Hb].
  rewrite Z.mul_1_l in Ha, Hb. subst a b. reflexivity.
Qed.

(** On an integer the remainder of the model is Python's integer
    remainder. *)
Lemma py_mod_int (n : Z) : Num.py_mod (inject_Z n) 360 = inject_Z (n mod 360).
Proof.
  unfold Num.py_mod. rewrite floor_int_360.
  rewrite <- (Qred_int (n mod 360)).
  apply Qred_complete.
  change 360%Q with (inject_Z 360).
  rewrite <- inject_Z_mult. unfold Qminus.
  rewrite <- inject_Z_opp, <- inject_Z_plus.
  rewrite Z.mod_eq by discriminate.
  apply inject_Z_injective. reflexivity.
Qed.





(** ** Motion mapping *)

Lemma abs_le_gtb (x : Q) : (Qabs x <= 0.7)%Q -> Num.gtb (Num.abs x) 0.7 = false.
Proof. intros H. apply gtb_le. exact H. Qed.

(** Runs a straight-line piece of a method on a symbolic world once the
    tests on its path are known. *)
Ltac run_calls Hok :=
  unfold bind, get, ask, modify, print, api, api_read, when, ret,
    record_call;
  cbn [ses trace out fst snd];
  repeat (rewrite Hok; cbn [ses trace out fst snd]);
  rewrite <- ?app_assoc; cbn [app].

(** The four cases of the motion step, lines 216-225. *)
Lemma movement_control_cases (e : Env) (w : World) (s : Z) :
  base_heading (ses w) = 90%Q ->
  speed (ses w) = s ->
  calibration_mode (ses w) = false ->
  (forall n, fails e n = false) ->
  (forall x,
      movement_control x (-1) e w
      = (Ret tt, mkWorld (ses w)
                   (trace w ++ [(SetHeading 90, true); (SetSpeed s, true)])
                   (out w))) /\
  (forall x,
      movement_control x 1 e w
      = (Ret tt, mkWorld (ses w)
                   (trace w ++ [(SetHeading 270, true); (SetSpeed s, true)])
                   (out w))) /\
  movement_control (-1) 0 e w
    = (Ret tt, mkWorld (ses w)
                 (trace w ++ [(SetHeading 68, true); (SetSpeed 0, true)])
                 (out w)) /\
  (forall x y,
      (Qabs x <= 0.7)%Q -> (Qabs y <= 0.7)%Q ->
      movement_control x y e w
      = (Ret tt, mkWorld (ses w) (trace w ++ [(SetSpeed 0, true)]) (out w))).
Proof.
  intros Hh Hs Hcal Hok.
  repeat split; intros; unfold movement_control, move;
    unfold bind at 1; unfold get at 1; cbn [ses]; rewrite Hcal.
  - change (Num.gtb (Num.abs (-1)) 0.7) with true. cbn iota.
    run_calls Hok. rewrite Hh, Hs. reflexivity.
  - change (Num.gtb (Num.abs 1) 0.7) with true. cbn iota.
    run_calls Hok. rewrite Hh, Hs. reflexivity.
  - change (Num.gtb (Num.abs 0) 0.7) with false.
    change (Num.gtb (Num.abs (-1)) 0.7) with true. cbn iota.
    run_calls Hok. rewrite Hh. reflexivity.
  - rewrite (abs_le_gtb y), (abs_le_gtb x) by assumption.
    run_calls Hok. reflexivity.
Qed.

(** C6.  With [base_heading = 90], speed [s] and calibration inactive, the
    motion step issues: heading 90 and speed [s] for the forward axis at
    -1; heading 270 and speed [s] for the forward axis at +1; heading 68
    and speed 0 for a pure left turn (x = -1, y = 0); and only speed 0 when
    both axes are within the 0.7 deadzone. *)
Theorem motion_mapping (e : Env) (w : World) (s : Z) :
  base_heading (ses w) = 90%Q ->
  speed (ses w) = s ->
  calibration_mode (ses w) = false ->
  (forall n, fails e n = false) ->
  (forall x,
      movement_control x (-1) e w
      = (Ret tt, mkWorld (ses w)
                   (trace w ++ [(SetHeading 90, true); (SetSpeed s, true)])
                   (out w))) /\
  (forall x,
      movement_control x 1 e w
      = (Ret tt, mkWorld (ses w)
                   (trace w ++ [(SetHeading 270, true); (SetSpeed s, true)])
                   (out w))) /\
  movement_control (-1) 0 e w
    = (Ret tt, mkWorld (ses w)
                 (trace w ++ [(SetHeading 68, true); (SetSpeed 0, true)])
                 (out w)) /\
  (forall x y,
      (Qabs x <= 0.7)%Q -> (Qabs y <= 0.7)%Q ->
      movement_control x y e w
      = (Ret tt, mkWorld (ses w) (trace w ++ [(SetSpeed 0, true)]) (out w))).
Proof. exact (movement_control_cases e w s). Qed.

Lemma motion_mapping_witness :
  base_heading (ses facing_east) = 90%Q /\
  speed (ses facing_east) = 50 /\
  calibration_mode (ses facing_east) = false /\
  (forall n, fails quiet n = false) /\
  movement_control 0 (-1) quiet facing_east
    = (Ret tt, mkWorld (ses facing_east)
                 (trace facing_east
                    ++ [(SetHeading 90, true); (SetSpeed 50, true)])
                 (out facing_east)) /\
  movement_control 0 1 quiet facing_east
    = (Ret tt, mkWorld (ses facing_east)
                 (trace facing_east
                    ++ [(SetHeading 270, true); (SetSpeed 50, true)])
                 (out facing_east)) /\
  movement_control (-1) 0 quiet facing_east
    = (Ret tt, mkWorld (ses facing_east)
                 (trace facing_east
                    ++ [(SetHeading 68, true); (SetSpeed 0, true)])
                 (out facing_east)) /\
  movement_control 0.5 (-0.7) quiet facing_east
    = (Ret tt, mkWorld (ses facing_east)
                 (trace facing_east ++ [(SetSpeed 0, true)])
                 (out facing_east)).
Proof.
  assert (Hh : base_heading (ses facing_east) = 90%Q) by reflexivity.
  assert (Hs : speed (ses facing_east) = 50) by reflexivity.
  assert (Hcal : calibration_mode (ses facing_east) = false) by reflexivity.
  assert (Hok : forall n, fails quiet n = false) by reflexivity.
  do 4 (split; [assumption |]).
  pose proof (motion_mapping quiet facing_east 50 Hh Hs Hcal Hok)
    as (Hf & Hr & Hl & Hd).
  split; [exact (Hf 0%Q) |]. split; [exact (Hr 0%Q) |].
  split; [exact Hl |].
  apply (Hd 0.5%Q (-0.7)%Q); cbn; lra.
Defined.

(** The same at the level of a whole tick, when no button is held, the
    battery check is not due and cheat mode is off: the tick issues the
    move and then refreshes the display. *)
Lemma motion_mapping_tick (e : Env) (w : World) :
  base_heading (ses w) = 90%Q ->
  calibration_mode (ses w) = false ->
  cheat_mode (ses w) = false ->
  (forall n, fails e n = false) ->
  (forall b, get_button e b = false) ->
  (clock e - last_battery_check (ses w) < 30)%Q ->
  axis1 e = (-1)%Q ->
  tick e w
  = (Ret tt,
     mkWorld (ses w)
       (trace w ++ [ (SetHeading 90, true); (SetSpeed (speed (ses w)), true);
                     (SetMatrixCharacter
                        (patterns_get LED_PATTERNS (player_id (ses w)) "?")
                        (color (ses w)), true) ])
       (out w)).
Proof.
  intros Hh Hcal Hcheat Hok Hbtn Hclock Hy.
  assert (Hdue : Num.geb (Num.sub (clock e) (last_battery_check (ses w)))
                   BATTERY_CHECK_INTERVAL = false).
  { apply geb_lt. rewrite sub_eq. exact Hclock. }
  unfold tick, battery_step, check_konami_code, speed_presets,
    auto_straighten, display_number, try_except.
  unfold bind at 1. unfold ask at 1. cbn [fst snd].
  unfold bind at 1. unfold bind at 1. unfold get at 1. cbn [ses].
  rewrite Hdue. cbn [when ret].
  unfold bind at 1. unfold ask at 1.
  unfold bind at 1. unfold ask at 1. rewrite Hy.
  unfold bind at 1.
  replace (for_each BUTTONS _ e w) with (@Ret unit tt, w).
  2: { unfold BUTTONS. cbn [for_each]. unfold bind, ask, when, ret.
       rewrite !Hbtn. reflexivity. }
  unfold bind at 1. unfold bind at 1. unfold get at 1. rewrite Hcheat.
  cbn [negb when].
  unfold bind at 1. unfold ask at 1. rewrite Hbtn.
  unfold bind at 1. unfold ask at 1. rewrite Hbtn.
  unfold bind at 1. unfold ask at 1. rewrite Hbtn.
  unfold bind at 1. unfold ask at 1. rewrite Hbtn.
  cbn [ret].
  unfold bind at 1.
  destruct (movement_control_cases e w (speed (ses w)) Hh eq_refl Hcal Hok)
    as (Hf & _).
  rewrite Hf.
  unfold bind at 1. unfold bind at 1. unfold get at 1.
  cbn [ses]. rewrite Hcheat. cbn [andb when ret].
  run_calls Hok. reflexivity.
Qed.

(** ** Auto-straighten *)

Lemma straighten_guard (cheat : bool) (x y : Q) :
  cheat = true -> (0.7 < Qabs y)%Q -> (Qabs x < 0.2)%Q ->
  cheat && Num.gtb (Num.abs y) 0.7 && Num.ltb (Num.abs x) 0.2 = true.
Proof.
  intros -> Hy Hx. cbn [andb].
  apply gtb_gt in Hy. apply ltb_lt in Hx.
  unfold Num.abs. rewrite Hy, Hx. reflexivity.
Qed.

(** The auto-straighten step on the numbers of C7, and the case without
    correction. *)
Lemma auto_straighten_cases (e : Env) (w : World) (x y : Q) :
  cheat_mode (ses w) = true ->
  (0.7 < Qabs y)%Q ->
  (Qabs x < 0.2)%Q ->
  (forall n, fails e n = false) ->
  (base_heading (ses w) = 0%Q ->
   (heading_reading e == 10)%Q ->
   auto_straighten x y e w
   = (Ret tt,
      mkWorld (with_base_heading (-2) (ses w))
        (trace w ++ [(GetHeading, true); (SetHeading (-2), true)])
        (out w))) /\
  ((Qabs (heading_reading e - base_heading (ses w)) <= 3)%Q ->
   auto_straighten x y e w
   = (Ret tt, mkWorld (ses w) (trace w ++ [(GetHeading, true)]) (out w))).
Proof.
  intros Hcheat Hy Hx Hok.
  pose proof (straighten_guard _ x y Hcheat Hy Hx) as Hguard.
  split.
  - intros Hh Hcur. unfold auto_straighten.
    unfold bind at 1. unfold get at 1. rewrite Hguard. cbn [when].
    unfold bind at 1. unfold api_read at 1. rewrite Hok.
    unfold bind at 1. unfold get at 1.
    cbn [ses record_call]. rewrite Hh.
    assert (Hdelta : Num.sub (heading_reading e) 0 = 10%Q).
    { unfold Num.sub. change 10%Q with (Qred 10).
      apply Qred_complete. rewrite Hcur. reflexivity. }
    rewrite Hdelta.
    change (Num.gtb (Num.abs 10) 3) with true. cbn [when].
    run_calls Hok. rewrite Hh. reflexivity.
  - intros Hsmall. unfold auto_straighten.
    unfold bind at 1. unfold get at 1. rewrite Hguard. cbn [when].
    unfold bind at 1. unfold api_read at 1. rewrite Hok.
    unfold bind at 1. unfold get at 1.
    cbn [ses record_call].
    assert (Hno : Num.gtb
                    (Num.abs (Num.sub (heading_reading e)
                                (base_heading (ses w)))) 3 = false).
    { apply gtb_le. unfold Num.abs. rewrite sub_eq. exact Hsmall. }
    rewrite Hno. reflexivity.
Qed.

(** C7, as amended.  On a tick where [cheat_mode] is true,
    [|y_axis| > 0.7] and [|x_axis| < 0.2]: with [base_heading = 0] and a
    reported heading of 10 the correction is [-(10 - 0) * 0.2 = -2], the
    new [base_heading] is -2 (stored as it is, not reduced to 358), and
    heading -2 is re-issued to the robot; when [|delta| <= 3] the session
    is unchanged and no heading is issued. *)
Theorem auto_straighten_step (e : Env) (w : World) (x y : Q) :
  cheat_mode (ses w) = true ->
  (0.7 < Qabs y)%Q ->
  (Qabs x < 0.2)%Q ->
  (forall n, fails e n = false) ->
  (base_heading (ses w) = 0%Q ->
   (heading_reading e == 10)%Q ->
   auto_straighten x y e w
   = (Ret tt,
      mkWorld (with_base_heading (-2) (ses w))
        (trace w ++ [(GetHeading, true); (SetHeading (-2), true)])
        (out w))) /\
  ((Qabs (heading_reading e - base_heading (ses w)) <= 3)%Q ->
   auto_straighten x y e w
   = (Ret tt, mkWorld (ses w) (trace w ++ [(GetHeading, true)]) (out w))).
Proof. exact (auto_straighten_cases e w x y). Qed.

Lemma auto_straighten_step_witness :
  cheat_mode (ses cheating) = true /\
  (0.7 < Qabs (-1))%Q /\
  (Qabs 0 < 0.2)%Q /\
  (forall n, fails drifting n = false) /\
  base_heading (ses cheating) = 0%Q /\
  (heading_reading drifting == 10)%Q /\
  auto_straighten 0 (-1) drifting cheating
  = (Ret tt,
     mkWorld (with_base_heading (-2) (ses cheating))
       (trace cheating ++ [(GetHeading, true); (SetHeading (-2), true)])
       (out cheating)).
Proof.
  assert (Hc : cheat_mode (ses cheating) = true) by reflexivity.
  assert (Hy : (0.7 < Qabs (-1))%Q) by (cbn; lra).
  assert (Hx : (Qabs 0 < 0.2)%Q) by (cbn; lra).
  assert (Hok : forall n, fails drifting n = false) by reflexivity.
  assert (Hh : base_heading (ses cheating) = 0%Q) by reflexivity.
  assert (Hr : (heading_reading drifting == 10)%Q) by reflexivity.
  do 6 (split; [assumption |]).
  exact (proj1 (auto_straighten_step drifting cheating 0 (-1) Hc Hy Hx Hok)
           Hh Hr).
Defined.

(** C7 as stated fails on the stored value: after the tick of the example
    [base_heading] is -2, which is not 358, and the heading sent to the
    robot is -2. *)
Lemma correction_not_normalized :
  cheat_mode (ses cheating) = true /\
  base_heading (ses cheating) = 0%Q /\
  axis0 drifting = 0%Q /\ axis1 drifting = (-1)%Q /\
  heading_reading drifting = 10%Q /\
  base_heading (ses (snd (tick drifting cheating))) = (-2)%Q /\
  ~ (base_heading (ses (snd (tick drifting cheating))) == 358)%Q /\
  skipn (List.length (trace cheating)) (trace (snd (tick drifting cheating)))
  = [ (SetHeading 0, true); (SetSpeed 255, true); (GetHeading, true);
      (SetHeading (-2), true);
      (SetMatrixCharacter "1" (RGB 255 0 0), true) ].
Proof.
  repeat split; try reflexivity.
  intros H. vm_compute in H. discriminate H.
Qed.

(** ** Failures inside the battery check and the display refresh *)

Lemma front_led_app (t1 t2 : list Event) :
  front_led (t1 ++ t2)
  = fold_left (fun led ev =>
                 match ev with
                 | (SetFrontLed c, true) => Some c
                 | _ => led
                 end) t2 (front_led t1).
Proof. unfold front_led. apply fold_left_app. Qed.

(** A battery read that fails is logged and leaves the session alone. *)
Lemma check_battery_read_fails (e : Env) (w : World) :
  fails e (List.length (trace w)) = true ->
  check_battery e w
  = (Ret tt, mkWorld (ses w) (trace w ++ [(GetBatteryVoltage, false)])
               (out w ++ [MsgBatteryFailed])).
Proof.
  intros Hfail.
  unfold check_battery, try_except, bind, api_read. rewrite Hfail.
  reflexivity.
Qed.

(** [check_battery] returns normally and keeps the session, whatever
    fails. *)
Lemma check_battery_total (e : Env) (w : World) :
  fst (check_battery e w) = Ret tt /\ ses (snd (check_battery e w)) = ses w.
Proof.
  unfold check_battery, try_except, bind, api_read, api, get, print.
  destruct (fails e (List.length (trace w))); cbn; [split; reflexivity |].
  destruct (fails e _); cbn; split; reflexivity.
Qed.

Lemma display_number_total (e : Env) (w : World) :
  fst (display_number e w) = Ret tt /\ ses (snd (display_number e w)) = ses w.
Proof.
  unfold display_number, try_except, bind, api, get, print. cbn.
  destruct (fails e (List.length (trace w))); cbn; split; reflexivity.
Qed.

(** The battery step when the interval has elapsed and the read fails. *)
Lemma battery_step_read_fails (e : Env) (w : World) (now : Q) :
  (30 <= now - last_battery_check (ses w))%Q ->
  fails e (List.length (trace w)) = true ->
  battery_step now e w
  = (Ret tt,
     mkWorld (with_last_battery_check now (ses w))
       (trace w ++ [(GetBatteryVoltage, false)])
       (out w ++ [MsgBatteryFailed])).
Proof.
  intros Hdue Hfail.
  unfold battery_step. unfold bind at 1. unfold get at 1.
  assert (Hgeb : Num.geb (Num.sub now (last_battery_check (ses w)))
                   BATTERY_CHECK_INTERVAL = true).
  { apply geb_ge. rewrite sub_eq. exact Hdue. }
  rewrite Hgeb. cbn [when].
  unfold bind. rewrite (check_battery_read_fails e w Hfail).
  reflexivity.
Qed.

(** Before the interval has elapsed the battery step does nothing. *)
Lemma battery_step_not_due (e : Env) (w : World) (now : Q) :
  (now - last_battery_check (ses w) < 30)%Q ->
  battery_step now e w = (Ret tt, w).
Proof.
  intros Hearly.
  unfold battery_step. unfold bind at 1. unfold get at 1.
  assert (Hgeb : Num.geb (Num.sub now (last_battery_check (ses w)))
                   BATTERY_CHECK_INTERVAL = false).
  { apply geb_lt. rewrite sub_eq. exact Hearly. }
  rewrite Hgeb. reflexivity.
Qed.

(** Nothing after the battery step touches [last_battery_check]. *)
Lemma tick_last_battery_check (e : Env) (w : World) :
  last_battery_check (ses (snd (tick e w)))
  = last_battery_check (ses (snd (battery_step (clock e) e w))).
Proof.
  unfold tick. unfold bind at 1. unfold ask at 1.
  unfold bind at 1.
  destruct (battery_step (clock e) e w) as [[[] | x] w1]; [| reflexivity].
  cbn [snd].
  match goal with
  | |- last_battery_check (ses (snd (?m e w1))) = ?t =>
      assert (Hkeep : preserves
                        (fun w' => last_battery_check (ses w') = t) m)
  end.
  { unfold_methods; unfold speed_presets, activate_cheat_mode;
      preserve; cbn; intros; auto. }
  apply Hkeep. reflexivity.
Qed.

Lemma battery_step_due (e : Env) (w : World) (now : Q) :
  (30 <= now - last_battery_check (ses w))%Q ->
  battery_step now e w
  = (Ret tt,
     mkWorld (with_last_battery_check now (ses w))
       (trace (snd (check_battery e w))) (out (snd (check_battery e w)))).
Proof.
  intros Hdue.
  assert (Hgeb : Num.geb (Num.sub now (last_battery_check (ses w)))
                   BATTERY_CHECK_INTERVAL = true).
  { apply geb_ge. rewrite sub_eq. exact Hdue. }
  unfold battery_step. unfold bind at 1. unfold get at 1.
  rewrite Hgeb. cbn [when]. unfold bind.
  destruct (check_battery_total e w) as [Hret Hses].
  destruct (check_battery e w) as [[[] | x] w1]; cbn [fst snd] in *;
    [| discriminate].
  unfold modify. rewrite Hses. reflexivity.
Qed.

(** C10.  On a tick whose clock is at least 30 seconds past
    [last_battery_check], whether the battery voltage read succeeds or
    fails: the battery step returns normally and sets [last_battery_check]
    to the tick's clock, changing no other session field, and the
    timestamp is still the tick's clock at the end of the tick, so a later
    battery step less than 30 seconds after that clock attempts nothing.
    When the read fails, the step makes no other robot call (the front LED
    keeps its value) and logs the failure. *)
Theorem elapsed_interval_advances_timestamp (e : Env) (w : World) :
  (30 <= clock e - last_battery_check (ses w))%Q ->
  fst (battery_step (clock e) e w) = Ret tt /\
  ses (snd (battery_step (clock e) e w))
  = with_last_battery_check (clock e) (ses w) /\
  last_battery_check (ses (snd (tick e w))) = clock e /\
  (fails e (List.length (trace w)) = true ->
   battery_step (clock e) e w
   = (Ret tt,
      mkWorld (with_last_battery_check (clock e) (ses w))
        (trace w ++ [(GetBatteryVoltage, false)])
        (out w ++ [MsgBatteryFailed])) /\
   front_led (trace (snd (battery_step (clock e) e w)))
   = front_led (trace w)) /\
  (forall (e' : Env) (now : Q),
      (now - clock e < 30)%Q ->
      battery_step now e' (snd (battery_step (clock e) e w))
      = (Ret tt, snd (battery_step (clock e) e w))).
Proof.
  intros Hdue.
  pose proof (battery_step_due e w (clock e) Hdue) as Hstep.
  split; [rewrite Hstep; reflexivity |].
  split; [rewrite Hstep; reflexivity |].
  split; [rewrite tick_last_battery_check, Hstep; reflexivity |].
  split.
  - intros Hfail.
    pose proof (battery_step_read_fails e w (clock e) Hdue Hfail) as Hf.
    split; [exact Hf |].
    rewrite Hf. cbn [snd trace]. rewrite front_led_app. reflexivity.
  - intros e' now Hnow. apply battery_step_not_due.
    rewrite Hstep. exact Hnow.
Qed.

Lemma elapsed_interval_advances_timestamp_witness :
  (30 <= clock dead_battery_line - last_battery_check (ses fresh))%Q /\
  fails dead_battery_line (List.length (trace fresh)) = true /\
  fst (battery_step (clock dead_battery_line) dead_battery_line fresh)
  = Ret tt /\
  ses (snd (battery_step (clock dead_battery_line) dead_battery_line fresh))
  = with_last_battery_check (clock dead_battery_line) (ses fresh) /\
  last_battery_check (ses (snd (tick dead_battery_line fresh)))
  = clock dead_battery_line /\
  front_led (trace (snd (battery_step (clock dead_battery_line)
                           dead_battery_line fresh)))
  = front_led (trace fresh).
Proof.
  assert (Hdue : (30 <= clock dead_battery_line
                        - last_battery_check (ses fresh))%Q)
    by (cbn; lra).
  assert (Hfail : fails dead_battery_line (List.length (trace fresh)) = true)
    by reflexivity.
  split; [exact Hdue |]. split; [exact Hfail |].
  pose proof (elapsed_interval_advances_timestamp dead_battery_line fresh Hdue)
    as (H1 & H2 & H3 & H4 & _).
  split; [exact H1 |]. split; [exact H2 |]. split; [exact H3 |].
  exact (proj2 (H4 Hfail)).
Defined.

(** ** Which failures stop the loop *)

Section Guarded.

Lemma guarded_ret {A} (a : A) : guarded (ret a).
Proof. intros e w H. exact H. Qed.

Lemma guarded_bind {A B} (m : M A) (f : A -> M B) :
  guarded m -> (forall a, guarded (f a)) -> guarded (bind m f).
Proof.
  intros Hm Hf e w H. unfold bind. specialize (Hm e w H).
  destruct (m e w) as [[a | x] w'].
  - apply Hf; exact Hm.
  - exact Hm.
Qed.

Lemma guarded_when (c : bool) (m : M unit) : guarded m -> guarded (when c m).
Proof. intros Hm. destruct c; [exact Hm | apply guarded_ret]. Qed.

Lemma guarded_for_each {A} (l : list A) (body : A -> M unit) :
  (forall x, guarded (body x)) -> guarded (for_each l body).
Proof.
  intros Hbody. induction l as [| x rest IH]; cbn [for_each].
  - apply guarded_ret.
  - apply guarded_bind; [apply Hbody | intros _; exact IH].
Qed.

Lemma guarded_get {A} (f : Session -> A) : guarded (get f).
Proof. intros e w H. exact H. Qed.

Lemma guarded_ask {A} (f : Env -> A) : guarded (ask f).
Proof. intros e w H. exact H. Qed.

Lemma guarded_print (m : Msg) : guarded (print m).
Proof. intros e w H. exact H. Qed.

Lemma guarded_modify (f : Session -> Session) :
  (forall s, konami_index (f s) = konami_index s) -> guarded (modify f).
Proof.
  intros Hf e w H. unfold modify, cursor_ok in *. cbn. rewrite Hf. exact H.
Qed.

Lemma guarded_api (c : Call) : unguarded_call c = true -> guarded (api c).
Proof.
  intros Hc e w H. unfold api.
  destruct (fails e (List.length (trace w))).
  - split; [reflexivity |]. exists (trace w), c. split; [reflexivity | exact Hc].
  - exact H.
Qed.

Lemma guarded_api_read (c : Call) (read : Env -> Q) :
  unguarded_call c = true -> guarded (api_read c read).
Proof.
  intros Hc e w H. unfold api_read.
  destruct (fails e (List.length (trace w))).
  - split; [reflexivity |]. exists (trace w), c. split; [reflexivity | exact Hc].
  - exact H.
Qed.

Lemma guarded_check_battery : guarded check_battery.
Proof.
  intros e w H. destruct (check_battery_total e w) as [Hret Hses].
  destruct (check_battery e w) as [[[] | x] w']; cbn [fst snd] in *.
  - rewrite Hses. exact H.
  - discriminate.
Qed.

Lemma guarded_display_number : guarded display_number.
Proof.
  intros e w H. destruct (display_number_total e w) as [Hret Hses].
  destruct (display_number e w) as [[[] | x] w']; cbn [fst snd] in *.
  - rewrite Hses. exact H.
  - discriminate.
Qed.

Lemma guarded_on_button_pressed (b : Z) : guarded (on_button_pressed b).
Proof.
  intros e w H. unfold cursor_ok in H.
  unfold on_button_pressed, bind, get, list_index.
  destruct (nth_error KONAMI_CODE (konami_index (ses w))) as [k |] eqn:Hk.
  2: { apply nth_error_None in Hk. lia. }
  cbn [ret]. destruct (Z.eqb b k); [| cbn; unfold cursor_ok; cbn; lia].
  cbn [modify ses konami_index with_konami_index].
  destruct (Nat.eqb (S (konami_index (ses w))) (List.length KONAMI_CODE))
    eqn:Hlast; cbn [when ret].
  - unfold activate_cheat_mode, bind, modify, print, api.
    cbn [ses trace out].
    destruct (fails e (List.length (trace w))); cbn.
    + split; [reflexivity |].
      exists (trace w), (SetFrontLed (RGB 255 0 255)). split; reflexivity.
    + unfold cursor_ok. cbn. lia.
  - apply Nat.eqb_neq in Hlast. unfold cursor_ok. cbn in *. lia.
Qed.

End Guarded.

Ltac guard_step :=
  match goal with
  | |- guarded (bind _ _) => apply guarded_bind; [| intros ?]
  | |- guarded (when _ _) => apply guarded_when
  | |- guarded (for_each _ _) => apply guarded_for_each; intros [? ?]
  | |- guarded (ret _) => apply guarded_ret
  | |- guarded (get _) => apply guarded_get
  | |- guarded (ask _) => apply guarded_ask
  | |- guarded (print _) => apply guarded_print
  | |- guarded (modify _) => apply guarded_modify; intros ?; reflexivity
  | |- guarded (api _) => apply guarded_api; reflexivity
  | |- guarded (api_read _ _) => apply guarded_api_read; reflexivity
  | |- guarded check_battery => apply guarded_check_battery
  | |- guarded display_number => apply guarded_display_number
  | |- guarded (on_button_pressed _) => apply guarded_on_button_pressed
  | |- guarded (if ?c then _ else _) => destruct c
  end.

Lemma guarded_tick : guarded tick.
Proof.
  unfold tick, battery_step, check_konami_code, speed_presets,
    movement_control, auto_straighten, enter_calibration, move.
  repeat guard_step.
Qed.

(** *** Which failed calls a returning tick can contain *)

Lemma only_caught_snoc (t : list Event) :
  forall (a : bool) (c : Call) (ok : bool),
    only_caught a (t ++ [(c, ok)])
    = only_caught a t && (ok || caught_call (ends_with_read a t) c).
Proof.
  induction t as [| [c' ok'] rest IH]; intros a c ok.
  - cbn. rewrite andb_true_r. reflexivity.
  - cbn [app only_caught]. rewrite IH.
    unfold ends_with_read. cbn [fold_left]. rewrite andb_assoc. reflexivity.
Qed.

Lemma ends_with_read_snoc (t : list Event) (a : bool) (ev : Event) :
  ends_with_read a (t ++ [ev]) = read_ok ev.
Proof. unfold ends_with_read. rewrite fold_left_app. reflexivity. Qed.

(** A call that returned, other than the battery read, keeps a world
    tidy. *)
Lemma tidy_call_ok (t0 : list Event) (w : World) (c : Call) :
  c <> GetBatteryVoltage ->
  tidy t0 w -> tidy t0 (record_call c true w).
Proof.
  intros Hc [Hcur (t & Ht & Hcaught & Hend)]. split; [exact Hcur |].
  exists (t ++ [(c, true)]). cbn [record_call trace].
  rewrite Ht, <- app_assoc. split; [reflexivity |].
  rewrite only_caught_snoc, ends_with_read_snoc, Hcaught.
  split; [reflexivity |]. destruct c; try reflexivity. contradiction.
Qed.

(** A failed call of an unguarded kind breaks it. *)
Lemma broken_call_failed (t0 : list Event) (w : World) (c : Call) :
  unguarded_call c = true ->
  tidy t0 w -> broken t0 (record_call c false w).
Proof.
  intros Hc [_ (t & Ht & Hcaught & Hend)].
  exists (t ++ [(c, false)]). cbn [record_call trace].
  rewrite Ht, <- app_assoc. split; [reflexivity |].
  rewrite only_caught_snoc, Hcaught, Hend.
  destruct c; try reflexivity; discriminate.
Qed.

Section Isolation.

Variable t0 : list Event.

Lemma isolates_ret {A} (a : A) : isolates t0 (ret a).
Proof. intros e w H. exact H. Qed.

Lemma isolates_bind {A B} (m : M A) (f : A -> M B) :
  isolates t0 m -> (forall a, isolates t0 (f a)) -> isolates t0 (bind m f).
Proof.
  intros Hm Hf e w H. unfold bind. specialize (Hm e w H).
  destruct (m e w) as [[a | x] w'].
  - apply Hf; exact Hm.
  - exact Hm.
Qed.

Lemma isolates_when (c : bool) (m : M unit) :
  isolates t0 m -> isolates t0 (when c m).
Proof. intros Hm. destruct c; [exact Hm | apply isolates_ret]. Qed.

Lemma isolates_for_each {A} (l : list A) (body : A -> M unit) :
  (forall x, isolates t0 (body x)) -> isolates t0 (for_each l body).
Proof.
  intros Hbody. induction l as [| x rest IH]; cbn [for_each].
  - apply isolates_ret.
  - apply isolates_bind; [apply Hbody | intros _; exact IH].
Qed.

Lemma isolates_get {A} (f : Session -> A) : isolates t0 (get f).
Proof. intros e w H. exact H. Qed.

Lemma isolates_ask {A} (f : Env -> A) : isolates t0 (ask f).
Proof. intros e w H. exact H. Qed.

Lemma isolates_print (m : Msg) : isolates t0 (print m).
Proof. intros e w H. exact H. Qed.

Lemma isolates_modify (f : Session -> Session) :
  (forall s, konami_index (f s) = konami_index s) -> isolates t0 (modify f).
Proof.
  intros Hf e w [Hcur Ht]. unfold modify. split; [| exact Ht].
  unfold cursor_ok in *. cbn. rewrite Hf. exact Hcur.
Qed.

Lemma isolates_api (c : Call) :
  unguarded_call c = true -> isolates t0 (api c).
Proof.
  intros Hc e w H. unfold api.
  destruct (fails e (List.length (trace w))).
  - split; [reflexivity |]. apply broken_call_failed; assumption.
  - apply tidy_call_ok; [| exact H]. intros ->. discriminate.
Qed.

Lemma isolates_api_read (c : Call) (read : Env -> Q) :
  unguarded_call c = true -> isolates t0 (api_read c read).
Proof.
  intros Hc e w H. unfold api_read.
  destruct (fails e (List.length (trace w))).
  - split; [reflexivity |]. apply broken_call_failed; assumption.
  - apply tidy_call_ok; [| exact H]. intros ->. discriminate.
Qed.

Lemma isolates_check_battery : isolates t0 check_battery.
Proof.
  intros e w [Hcur (t & Ht & Hcaught & Hend)].
  unfold check_battery, try_except, bind, api_read, api, get, print,
    record_call.
  cbn [ses trace out].
  destruct (fails e (List.length (trace w))); cbn [ses trace out].
  - split; [exact Hcur |]. exists (t ++ [(GetBatteryVoltage, false)]).
    cbn [trace]. rewrite Ht, <- app_assoc. split; [reflexivity |].
    rewrite only_caught_snoc, ends_with_read_snoc, Hcaught.
    split; reflexivity.
  - destruct (fails e _); cbn [ses trace out];
      (split; [exact Hcur |]);
      cbn [trace];
      match goal with
      | |- exists _, (_ ++ [?a]) ++ [?b] = _ /\ _ =>
          exists ((t ++ [a]) ++ [b])
      end;
      rewrite Ht, <- !app_assoc; (split; [reflexivity |]);
      rewrite !app_assoc, !only_caught_snoc, !ends_with_read_snoc, Hcaught;
      split; reflexivity.
Qed.

Lemma isolates_display_number : isolates t0 display_number.
Proof.
  intros e w [Hcur (t & Ht & Hcaught & Hend)].
  unfold display_number, try_except, bind, api, get, print, record_call.
  cbn [ses trace out].
  destruct (fails e (List.length (trace w))); cbn [ses trace out];
    (split; [exact Hcur |]);
    eexists; cbn [trace]; rewrite Ht, <- app_assoc;
    (split; [reflexivity |]);
    rewrite only_caught_snoc, ends_with_read_snoc, Hcaught;
    split; reflexivity.
Qed.

Lemma isolates_on_button_pressed (b : Z) : isolates t0 (on_button_pressed b).
Proof.
  intros e w H. pose proof H as [Hcur Ht]. unfold cursor_ok in Hcur.
  unfold on_button_pressed, bind, get, list_index.
  destruct (nth_error KONAMI_CODE (konami_index (ses w))) as [k |] eqn:Hk.
  2: { apply nth_error_None in Hk. lia. }
  cbn [ret]. destruct (Z.eqb b k).
  2: { split; [unfold cursor_ok; cbn; lia | exact Ht]. }
  cbn [modify ses konami_index with_konami_index].
  destruct (Nat.eqb (S (konami_index (ses w))) (List.length KONAMI_CODE))
    eqn:Hlast; cbn [when ret].
  - unfold activate_cheat_mode, bind, modify, print, api.
    cbn [ses trace out].
    destruct (fails e (List.length (trace w))).
    + split; [reflexivity |].
      destruct Ht as (t & Ht & Hcaught & Hend).
      exists (t ++ [(SetFrontLed (RGB 255 0 255), false)]).
      cbn [record_call trace]. rewrite Ht, <- app_assoc.
      split; [reflexivity |].
      rewrite only_caught_snoc, Hcaught, Hend. reflexivity.
    + cbn [record_call ses trace out].
      split; [unfold cursor_ok; cbn; lia |].
      destruct Ht as (t & Ht & Hcaught & Hend).
      exists (t ++ [(SetFrontLed (RGB 255 0 255), true)]).
      cbn [trace]. rewrite Ht, <- app_assoc. split; [reflexivity |].
      rewrite only_caught_snoc, ends_with_read_snoc, Hcaught.
      split; reflexivity.
  - apply Nat.eqb_neq in Hlast.
    split; [unfold cursor_ok; cbn in *; lia | exact Ht].
Qed.

End Isolation.

Ltac isolate_step :=
  match goal with
  | |- isolates _ (bind _ _) => apply isolates_bind; [| intros ?]
  | |- isolates _ (when _ _) => apply isolates_when
  | |- isolates _ (for_each _ _) => apply isolates_for_each; intros [? ?]
  | |- isolates _ (ret _) => apply isolates_ret
  | |- isolates _ (get _) => apply isolates_get
  | |- isolates _ (ask _) => apply isolates_ask
  | |- isolates _ (print _) => apply isolates_print
  | |- isolates _ (modify _) => apply isolates_modify; intros ?; reflexivity
  | |- isolates _ (api _) => apply isolates_api; reflexivity
  | |- isolates _ (api_read _ _) => apply isolates_api_read; reflexivity
  | |- isolates _ check_battery => apply isolates_check_battery
  | |- isolates _ display_number => apply isolates_display_number
  | |- isolates _ (on_button_pressed _) => apply isolates_on_button_pressed
  | |- isolates _ (if ?c then _ else _) => destruct c
  end.

Lemma isolates_tick (t0 : list Event) : isolates t0 tick.
Proof.
  unfold tick, battery_step, check_konami_code, speed_presets,
    movement_control, auto_straighten, enter_calibration, move.
  repeat isolate_step.
Qed.

(** A tick returns exactly when every failed call it made was one made
    inside a [try]. *)
Lemma tick_returns_iff (e : Env) (w : World) :
  cursor_ok (ses w) ->
  exists t,
    trace (snd (tick e w)) = trace w ++ t /\
    (fst (tick e w) = Ret tt <-> only_caught false t = true) /\
    (forall x, fst (tick e w) = Raise x -> x = ActuatorError).
Proof.
  intros Hcur.
  assert (Htidy : tidy (trace w) w).
  { split; [exact Hcur |]. exists []. rewrite app_nil_r.
    repeat split. }
  pose proof (isolates_tick (trace w) e w Htidy) as H.
  destruct (tick e w) as [[[] | x] w']; cbn [fst snd].
  - destruct H as [_ (t & Ht & Hcaught & _)].
    exists t. split; [exact Ht |]. split; [tauto | discriminate].
  - destruct H as [-> (t & Ht & Hbroken)].
    exists t. split; [exact Ht |]. split.
    + rewrite Hbroken. split; discriminate.
    + intros x Hx. injection Hx as <-. reflexivity.
Qed.

(** C5, as amended.  Failures of the battery voltage read, of the LED call
    inside the battery check and of the display call are caught and logged:
    [check_battery] and [display_number] always return normally and leave
    the session as it was.  Every other failing robot call of a tick (a
    heading, speed or heading-read call, or a front-LED call outside the
    battery check) is not caught: a tick started with the cursor inside
    the sequence returns exactly when each call that failed in it was one
    of the three caught ones, and otherwise ends at the failed call with
    that exception, which also ends the loop. *)
Theorem caught_failures (e : Env) (w : World) :
  cursor_ok (ses w) ->
  (fst (check_battery e w) = Ret tt /\ ses (snd (check_battery e w)) = ses w) /\
  (fst (display_number e w) = Ret tt /\
   ses (snd (display_number e w)) = ses w) /\
  (fails e (List.length (trace w)) = true ->
   out (snd (check_battery e w)) = out w ++ [MsgBatteryFailed] /\
   out (snd (display_number e w)) = out w ++ [MsgDisplayFailed]) /\
  (fails e (List.length (trace w)) = false ->
   fails e (S (List.length (trace w))) = true ->
   out (snd (check_battery e w))
   = out w ++ [MsgBattery (player_id (ses w)) (voltage_reading e);
               MsgBatteryFailed]) /\
  (forall x, fst (tick e w) = Raise x -> escapes x (snd (tick e w))) /\
  (exists t,
      trace (snd (tick e w)) = trace w ++ t /\
      (fst (tick e w) = Ret tt <-> only_caught false t = true)) /\
  (forall (x : Exn) (more : list Env),
      is_running (ses w) = true ->
      fst (tick e w) = Raise x ->
      while_running (e :: more) w = (Aborted x, snd (tick e w))).
Proof.
  intros Hcur.
  split; [apply check_battery_total |].
  split; [apply display_number_total |].
  split; [| split; [| split; [| split]]].
  - intros Hfail. split.
    + rewrite (check_battery_read_fails e w Hfail). reflexivity.
    + unfold display_number, try_except, bind, get, api, print.
      cbn [ses trace out]. rewrite Hfail. reflexivity.
  - intros Hread Hled.
    unfold check_battery, try_except, bind, api_read, api, get, print.
    rewrite Hread. cbn [ses trace out record_call].
    rewrite length_app, Nat.add_comm. cbn [List.length Nat.add].
    rewrite Hled. unfold record_call. cbn [snd ses trace out].
    rewrite <- app_assoc. reflexivity.
  - intros x Hx. pose proof (guarded_tick e w Hcur) as Hg.
    destruct (tick e w) as [[[] | x'] w']; cbn [fst snd] in *.
    + discriminate.
    + injection Hx as <-. exact Hg.
  - destruct (tick_returns_iff e w Hcur) as (t & Ht & Hiff & _).
    exists t. split; assumption.
  - intros x more Hrun Hx. cbn [while_running]. rewrite Hrun.
    destruct (tick e w) as [[[] | x'] w']; cbn [fst snd] in *.
    + discriminate.
    + injection Hx as <-. reflexivity.
Qed.

Lemma caught_failures_witness :
  cursor_ok (ses fresh) /\
  out (snd (check_battery dead_battery_line fresh))
  = out fresh ++ [MsgBatteryFailed] /\
  fst (tick dead_battery_line fresh) = Ret tt /\
  (exists t,
      trace (snd (tick stalled fresh)) = trace fresh ++ t /\
      (fst (tick stalled fresh) = Ret tt <-> only_caught false t = true)).
Proof.
  assert (Hcur : cursor_ok (ses fresh)) by (unfold cursor_ok; cbn; lia).
  split; [exact Hcur |].
  destruct (caught_failures dead_battery_line fresh Hcur)
    as (_ & _ & Hlog & _).
  split; [exact (proj1 (Hlog eq_refl)) |]. split; [reflexivity |].
  destruct (caught_failures stalled fresh Hcur)
    as (_ & _ & _ & _ & _ & Hiff & _).
  exact Hiff.
Defined.

(** C5 as stated fails for the calls outside the two guarded methods: when
    the speed call of the motion step fails, nothing is logged, the tick
    ends at once (no display refresh) and the loop ends with the
    exception, the next tick never running. *)
Lemma speed_failure_stops_loop :
  tick stalled fresh
  = (Raise ActuatorError, mkWorld (ses fresh) [(SetSpeed 0, false)] []) /\
  while_running [stalled; quiet] fresh
  = (Aborted ActuatorError, mkWorld (ses fresh) [(SetSpeed 0, false)] []).
Proof. split; reflexivity. Qed.

(** ** Calibration *)

Lemma calibration_off_movement (x y : Q) :
  preserves (fun w => calibration_mode (ses w) = false)
    (movement_control x y).
Proof.
  intros e w H. unfold movement_control.
  unfold bind at 1. unfold get at 1. rewrite H.
  match goal with
  | |- _ (ses (snd (?m e w))) = false =>
      assert (Hm : preserves
                     (fun w' => calibration_mode (ses w') = false) m)
  end.
  { unfold move; preserve; cbn; intros; auto. }
  apply Hm. exact H.
Qed.

(** Nothing in the loop switches calibration on. *)
Lemma calibration_off_tick :
  preserves (fun w => calibration_mode (ses w) = false) tick.
Proof.
  unfold tick, battery_step, auto_straighten, display_number,
    check_konami_code, on_button_pressed, check_battery, speed_presets,
    activate_cheat_mode.
  preserve; try apply calibration_off_movement; cbn; intros; auto.
Qed.

Lemma enter_calibration_effect (e : Env) (w : World) (x : Q) :
  (forall n, fails e n = false) ->
  exists h : Q,
    enter_calibration x e w
    = (Ret tt,
       mkWorld (with_base_heading h (with_calibration_mode true (ses w)))
         (trace w ++ [ (SetSpeed 0, true); (SetFrontLed (RGB 255 0 0), true);
                       (SetHeading h, true) ])
         (out w ++ [MsgCalibrating h])) /\
    ((x < -0.7)%Q -> (h == base_heading (ses w) - 5)%Q) /\
    ((0.7 < x)%Q -> (h == base_heading (ses w) + 5)%Q) /\
    ((-0.7 <= x)%Q -> (x <= 0.7)%Q -> h = base_heading (ses w)).
Proof.
  intros Hok. unfold enter_calibration.
  destruct (Num.ltb x (-0.7)) eqn:Hlo; [| destruct (Num.gtb x 0.7) eqn:Hhi].
  - exists (Num.sub (base_heading (ses w)) HEADING_ADJUSTMENT). split.
    + run_calls Hok. reflexivity.
    + apply ltb_lt in Hlo. repeat split; intros.
      * apply sub_eq.
      * lra.
      * lra.
  - exists (Num.add (base_heading (ses w)) HEADING_ADJUSTMENT). split.
    + run_calls Hok. reflexivity.
    + apply gtb_gt in Hhi. apply ltb_ge in Hlo. repeat split; intros.
      * lra.
      * apply add_eq.
      * lra.
  - exists (base_heading (ses w)). split.
    + run_calls Hok. destruct w as [[] ? ?]. reflexivity.
    + apply gtb_le in Hhi. apply ltb_ge in Hlo. repeat split; intros.
      * lra.
      * lra.
Qed.

(** C8, as amended.  The motion step delegates to calibration on every
    tick on which the session's [calibration_mode] flag is true (it reads
    no button); [toggle_calibration] enters calibration when the flag is
    false.  Entering sets the speed to 0, the front LED to red, moves
    [base_heading] by 5 degrees towards the x-axis when the axis is beyond
    0.7 in magnitude, commands the robot to face the new [base_heading]
    and leaves the flag true, so the same happens on the next tick. *)
Theorem calibration_delegation (e : Env) (w : World) (x y : Q) :
  (forall n, fails e n = false) ->
  (calibration_mode (ses w) = true ->
   movement_control x y e w = enter_calibration x e w) /\
  (calibration_mode (ses w) = false ->
   toggle_calibration x e w = enter_calibration x e w) /\
  exists h : Q,
    enter_calibration x e w
    = (Ret tt,
       mkWorld (with_base_heading h (with_calibration_mode true (ses w)))
         (trace w ++ [ (SetSpeed 0, true); (SetFrontLed (RGB 255 0 0), true);
                       (SetHeading h, true) ])
         (out w ++ [MsgCalibrating h])) /\
    calibration_mode (ses (snd (enter_calibration x e w))) = true /\
    ((x < -0.7)%Q -> (h == base_heading (ses w) - 5)%Q) /\
    ((0.7 < x)%Q -> (h == base_heading (ses w) + 5)%Q) /\
    ((-0.7 <= x)%Q -> (x <= 0.7)%Q -> h = base_heading (ses w)).
Proof.
  intros Hok. split; [| split].
  - intros Hcal. unfold movement_control.
    unfold bind at 1. unfold get at 1. rewrite Hcal. reflexivity.
  - intros Hcal. unfold toggle_calibration.
    unfold bind at 1. unfold get at 1. rewrite Hcal. reflexivity.
  - destruct (enter_calibration_effect e w x Hok) as (h & Heq & Hlo & Hhi & Hmid).
    exists h. split; [exact Heq |]. split; [rewrite Heq; reflexivity |].
    split; [exact Hlo |]. split; [exact Hhi | exact Hmid].
Qed.

Lemma calibration_delegation_witness :
  (forall n, fails quiet n = false) /\
  calibration_mode (ses trimmed) = true /\
  movement_control (-1) 0 quiet trimmed = enter_calibration (-1) quiet trimmed /\
  base_heading (ses (snd (enter_calibration (-1) quiet trimmed))) = (-15)%Q.
Proof.
  assert (Hok : forall n, fails quiet n = false) by reflexivity.
  assert (Hcal : calibration_mode (ses trimmed) = true) by reflexivity.
  split; [exact Hok |]. split; [exact Hcal |].
  split; [| reflexivity].
  exact (proj1 (calibration_delegation quiet trimmed (-1) 0 Hok) Hcal).
Defined.

(** C8 as stated fails: no button makes the motion step delegate to
    calibration.  With every button held and the flag off, the motion step
    only issues speed 0, and after the whole tick the flag is still off
    and the LED has not been set to red. *)
Lemma no_calibration_button :
  ~ (exists b : Z,
        forall (e : Env) (w : World),
          get_button e b = true ->
          movement_control (axis0 e) (axis1 e) e w
          = enter_calibration (axis0 e) e w) /\
  calibration_mode (ses (snd (tick all_held fresh))) = false /\
  ~ In (SetFrontLed (RGB 255 0 0), true) (trace (snd (tick all_held fresh))).
Proof.
  split; [| split].
  - intros [b H]. specialize (H all_held fresh eq_refl).
    vm_compute in H. discriminate H.
  - reflexivity.
  - vm_compute. intros H.
    repeat (destruct H as [H | H]; [discriminate H |]). exact H.
Qed.

(** ** Start-up failures *)

(** C9, as amended.  When no joystick is detected, or discovery finds no
    robot, or the API cannot be opened, [main] prints a message ending in
    "No joystick detected.", "No toy to connect to." or the connection
    error, does not enter the control loop and makes no robot call; it then
    returns, so the script ends with exit status 0. *)
Theorem startup_failure_returns (st : Startup) (name : string)
    (a2 a3 : string) (rest : list string) (prog : string)
    (joystick_id player : Z) :
  py_int st a2 = Some joystick_id ->
  py_int st a3 = Some player ->
  joystick_count st = 0 \/
  (open_joystick st joystick_id = true /\
   (snd (discover_toy st (Some name)) = None \/
    exists toy, snd (discover_toy st (Some name)) = Some toy /\
                open_api st toy = false)) ->
  let o := main st (Some name) joystick_id player in
  loop_entered o = false /\
  robot_calls o = [] /\
  uncaught o = false /\
  (exists msgs m, printed o = msgs ++ [m] /\
                  (m = MsgNoJoystick \/ m = MsgNoToy \/ m = MsgConnectError)) /\
  exit_status o = 0 /\
  exit_status (script st (prog :: name :: a2 :: a3 :: rest)) = 0.
Proof.
  intros Ha2 Ha3 Hfail o.
  assert (Hmain :
            loop_entered o = false /\ robot_calls o = [] /\
            uncaught o = false /\
            (exists msgs m, printed o = msgs ++ [m] /\
               (m = MsgNoJoystick \/ m = MsgNoToy \/ m = MsgConnectError)) /\
            exit_status o = 0).
  { subst o. unfold main.
    destruct (joystick_count st =? 0) eqn:Hcount.
    - cbn. repeat split. exists [], MsgNoJoystick. split; [reflexivity | tauto].
    - destruct Hfail as [H0 | [Hjoy Hrobot]].
      { rewrite H0 in Hcount. discriminate. }
      rewrite Hjoy. cbn [negb].
      destruct (discover_toy st (Some name)) as [msgs1 toy] eqn:Hdisc.
      cbn [snd] in Hrobot. destruct Hrobot as [-> | (t & -> & Hapi)].
      + cbn. repeat split. exists msgs1, MsgNoToy. split; [reflexivity | tauto].
      + cbn [connect]. rewrite Hapi. cbn. repeat split.
        exists msgs1, MsgConnectError. split; [reflexivity | tauto]. }
  destruct Hmain as (H1 & H2 & H3 & H4 & H5).
  repeat (split; [assumption |]).
  unfold script. rewrite Ha2, Ha3. cbn [exit_status]. exact H5.
Qed.

Lemma startup_failure_returns_witness :
  py_int nothing_in_range "0" = Some 0 /\
  py_int nothing_in_range "1" = Some 1 /\
  (joystick_count nothing_in_range = 0 \/
   (open_joystick nothing_in_range 0 = true /\
    (snd (discover_toy nothing_in_range (Some "SB-1234"%string)) = None \/
     exists toy,
       snd (discover_toy nothing_in_range (Some "SB-1234"%string)) = Some toy /\
       open_api nothing_in_range toy = false))) /\
  exit_status (script nothing_in_range sample_argv) = 0.
Proof.
  assert (H2 : py_int nothing_in_range "0" = Some 0) by reflexivity.
  assert (H3 : py_int nothing_in_range "1" = Some 1) by reflexivity.
  assert (Hf : joystick_count nothing_in_range = 0 \/
               (open_joystick nothing_in_range 0 = true /\
                (snd (discover_toy nothing_in_range (Some "SB-1234"%string))
                 = None \/
                 exists toy,
                   snd (discover_toy nothing_in_range (Some "SB-1234"%string))
                   = Some toy /\
                   open_api nothing_in_range toy = false))).
  { right. split; [reflexivity | left; reflexivity]. }
  split; [exact H2 |]. split; [exact H3 |]. split; [exact Hf |].
  exact (proj2 (proj2 (proj2 (proj2 (proj2
    (startup_failure_returns nothing_in_range "SB-1234" "0" "1" []
       "driveWithJoystick.py" 0 1 H2 H3 Hf)))))).
Defined.

(** C9 as stated fails on the exit status: with no joystick, and likewise
    with no robot found, the message is printed, the loop is not entered,
    no robot call is made, and the process ends with status 0. *)
Lemma startup_failure_exits_zero :
  joystick_count no_joystick = 0 /\
  script no_joystick sample_argv
  = mkOutcome [MsgConnecting "SB-1234" 0 1; MsgNoJoystick] false false [] 0 /\
  snd (discover_toy nothing_in_range (Some "SB-1234"%string)) = None /\
  script nothing_in_range sample_argv
  = mkOutcome [ MsgConnecting "SB-1234" 0 1; MsgSearchingNamed "SB-1234";
                MsgDiscoverError; MsgNoToy ] false false [] 0.
Proof. repeat split. Qed.

(** * Further properties of the code *)

(** ** [move] *)

Lemma add_int (n m : Z) :
  Num.add (inject_Z n) (inject_Z m) = inject_Z (n + m).
Proof.
  unfold Num.add. rewrite <- (Qred_int (n + m)). apply Qred_complete.
  rewrite inject_Z_plus. reflexivity.
Qed.

Lemma sub_int (n m : Z) :
  Num.sub (inject_Z n) (inject_Z m) = inject_Z (n - m).
Proof.
  unfold Num.sub. rewrite <- (Qred_int (n - m)). apply Qred_complete.
  unfold Z.sub, Qminus. rewrite inject_Z_plus, inject_Z_opp. reflexivity.
Qed.

(** For an integer heading [n], [move] sends [n mod 360], which lies in
    [[0, 360)]; it sends the speed only after the heading call has
    returned, and leaves the session and the console alone. *)
Theorem move_sends_reduced_heading (e : Env) (w : World) (n : Z) (spd : Z) :
  0 <= n mod 360 < 360 /\
  ses (snd (move (inject_Z n) spd e w)) = ses w /\
  out (snd (move (inject_Z n) spd e w)) = out w /\
  (fails e (List.length (trace w)) = true ->
   move (inject_Z n) spd e w
   = (Raise ActuatorError,
      mkWorld (ses w)
        (trace w ++ [(SetHeading (inject_Z (n mod 360)), false)]) (out w))) /\
  (fails e (List.length (trace w)) = false ->
   trace (snd (move (inject_Z n) spd e w))
   = trace w ++ [ (SetHeading (inject_Z (n mod 360)), true);
                  (SetSpeed spd,
                   negb (fails e (S (List.length (trace w))))) ]).
Proof.
  split; [apply Z.mod_pos_bound; reflexivity |].
  unfold move. rewrite py_mod_int.
  unfold bind, api, record_call. cbn [ses trace out].
  destruct (fails e (List.length (trace w))) eqn:Hh; cbn [ses trace out fst snd].
  - repeat split; intros; try reflexivity; discriminate.
  - rewrite length_app, Nat.add_comm. cbn [List.length Nat.add].
    destruct (fails e (S (List.length (trace w)))); cbn [ses trace out snd];
      rewrite <- app_assoc;
      (split; [reflexivity |]); (split; [reflexivity |]);
      (split; [discriminate | reflexivity]).
Qed.

(** ** The motion step for any heading *)

Lemma abs_gt_of_lt (y : Q) : (y < -0.7)%Q -> Num.gtb (Num.abs y) 0.7 = true.
Proof.
  intros H. apply gtb_gt. unfold Num.abs.
  rewrite Qabs_neg by lra. lra.
Qed.

Lemma abs_gt_of_gt (y : Q) : (0.7 < y)%Q -> Num.gtb (Num.abs y) 0.7 = true.
Proof.
  intros H. apply gtb_gt. unfold Num.abs.
  rewrite Qabs_pos by lra. exact H.
Qed.

(** With calibration off, a robot that answers and an integer
    [base_heading] [n] (in the range where every integer is a float), the
    motion step leaves the session alone and sends: [n mod 360] with the
    session's speed when the stick is pushed forward, [(n + 180) mod 360]
    with the session's speed when it is pulled back, and
    [(n + 22) mod 360] or [(n - 22) mod 360] with speed 0 when only the
    x-axis is beyond the deadzone, to the right or to the left.  The
    y-axis has priority. *)
Theorem movement_control_headings (e : Env) (w : World) (x y : Q) (n : Z) :
  calibration_mode (ses w) = false ->
  (forall n, fails e n = false) ->
  base_heading (ses w) = inject_Z n ->
  - 2 ^ 52 <= n <= 2 ^ 52 ->
  ((y < -0.7)%Q ->
   movement_control x y e w
   = (Ret tt, mkWorld (ses w)
                (trace w ++ [ (SetHeading (inject_Z (n mod 360)), true);
                              (SetSpeed (speed (ses w)), true) ])
                (out w))) /\
  ((0.7 < y)%Q ->
   movement_control x y e w
   = (Ret tt, mkWorld (ses w)
                (trace w ++ [ (SetHeading (inject_Z ((n + 180) mod 360)), true);
                              (SetSpeed (speed (ses w)), true) ])
                (out w))) /\
  ((Qabs y <= 0.7)%Q -> (0.7 < x)%Q ->
   movement_control x y e w
   = (Ret tt, mkWorld (ses w)
                (trace w ++ [ (SetHeading (inject_Z ((n + 22) mod 360)), true);
                              (SetSpeed 0, true) ])
                (out w))) /\
  ((Qabs y <= 0.7)%Q -> (x < -0.7)%Q ->
   movement_control x y e w
   = (Ret tt, mkWorld (ses w)
                (trace w ++ [ (SetHeading (inject_Z ((n - 22) mod 360)), true);
                              (SetSpeed 0, true) ])
                (out w))).
Proof.
  intros Hcal Hok Hint _.
  split; [| split; [| split]].
  - intros Hy. unfold movement_control, move.
    unfold bind at 1. unfold get at 1. rewrite Hcal.
    rewrite (abs_gt_of_lt y Hy).
    assert (Hneg : Num.ltb y 0 = true) by (apply ltb_lt; lra).
    run_calls Hok. rewrite Hneg, Hint, py_mod_int. reflexivity.
  - intros Hy. unfold movement_control, move.
    unfold bind at 1. unfold get at 1. rewrite Hcal.
    rewrite (abs_gt_of_gt y Hy).
    assert (Hneg : Num.ltb y 0 = false) by (apply ltb_ge; lra).
    run_calls Hok. rewrite Hneg, Hint.
    change 180%Q with (inject_Z 180). rewrite add_int, py_mod_int.
    reflexivity.
  - intros Hy Hx. unfold movement_control, move.
    unfold bind at 1. unfold get at 1. rewrite Hcal.
    rewrite (abs_le_gtb y Hy), (abs_gt_of_gt x Hx).
    assert (Hpos : Num.gtb x 0 = true) by (apply gtb_gt; lra).
    run_calls Hok. rewrite Hpos, Hint.
    change 22%Q with (inject_Z 22). rewrite add_int, py_mod_int.
    reflexivity.
  - intros Hy Hx. unfold movement_control, move.
    unfold bind at 1. unfold get at 1. rewrite Hcal.
    rewrite (abs_le_gtb y Hy), (abs_gt_of_lt x Hx).
    assert (Hpos : Num.gtb x 0 = false) by (apply gtb_le; lra).
    run_calls Hok. rewrite Hpos, Hint.
    change (-22)%Q with (inject_Z (-22)). rewrite add_int, py_mod_int.
    reflexivity.
Qed.

Lemma movement_control_headings_witness :
  calibration_mode (ses facing_east) = false /\
  (forall n, fails quiet n = false) /\
  base_heading (ses facing_east) = inject_Z 90 /\
  - 2 ^ 52 <= 90 <= 2 ^ 52 /\
  (0.7 < 1)%Q /\
  movement_control 0 1 quiet facing_east
  = (Ret tt, mkWorld (ses facing_east)
               (trace facing_east
                  ++ [ (SetHeading (inject_Z ((90 + 180) mod 360)), true);
                       (SetSpeed (speed (ses facing_east)), true) ])
               (out facing_east)).
Proof.
  assert (Hcal : calibration_mode (ses facing_east) = false) by reflexivity.
  assert (Hok : forall n, fails quiet n = false) by reflexivity.
  assert (Hint : base_heading (ses facing_east) = inject_Z 90) by reflexivity.
  assert (Hb : - 2 ^ 52 <= 90 <= 2 ^ 52) by (cbn; lia).
  assert (Hy : (0.7 < 1)%Q) by lra.
  split; [exact Hcal |]. split; [exact Hok |]. split; [exact Hint |].
  split; [exact Hb |]. split; [exact Hy |].
  exact (proj1 (proj2 (movement_control_headings quiet facing_east 0 1 90
                         Hcal Hok Hint Hb)) Hy).
Defined.

(** ** The loop as a whole *)

Lemma is_running_kept : preserves (fun w => is_running (ses w) = true) tick.
Proof.
  unfold_methods; unfold speed_presets, activate_cheat_mode;
    preserve; cbn; intros; auto.
Qed.

(** Nothing in the loop clears [is_running]: from a running session no
    prefix of the loop ends because the flag was found false; it is either
    still running or was ended by an exception. *)
Theorem loop_ends_only_by_exception (ticks : list Env) (w : World) :
  is_running (ses w) = true ->
  is_running (ses (snd (while_running ticks w))) = true /\
  fst (while_running ticks w) <> Finished.
Proof.
  revert w. induction ticks as [| e rest IH]; intros w Hrun;
    cbn [while_running]; rewrite Hrun.
  - split; [exact Hrun | discriminate].
  - pose proof (is_running_kept e w Hrun) as Hkept.
    destruct (tick e w) as [[[] | x] w']; cbn [fst snd] in *.
    + apply IH; exact Hkept.
    + split; [exact Hkept | discriminate].
Qed.

Lemma loop_ends_only_by_exception_witness :
  is_running (ses fresh) = true /\
  is_running (ses (snd (while_running [stalled; quiet] fresh))) = true /\
  fst (while_running [stalled; quiet] fresh) <> Finished.
Proof.
  assert (Hrun : is_running (ses fresh) = true) by reflexivity.
  split; [exact Hrun |].
  exact (loop_ends_only_by_exception [stalled; quiet] fresh Hrun).
Defined.

Lemma trace_prefix_tick (p : list Event) :
  preserves (fun w => exists t, trace w = p ++ t) tick.
Proof.
  unfold_methods; unfold speed_presets, activate_cheat_mode;
    preserve; cbn; intros; auto.
  all: match goal with
       | H : exists t, _ = _ ++ t |- _ =>
           let t := fresh "t" in
           destruct H as [t ->]; eexists; rewrite <- app_assoc; reflexivity
       end.
Qed.

(** [control_loop] enters the API context first.  If that entry fails the
    method ends with the exception and makes no other robot call; if it
    succeeds, the next robot call shows the player's glyph in the
    session's colour, before any tick. *)
Theorem control_loop_starts_with_display (swallow : bool) (e0 : Env)
    (ticks : list Env) (w : World) :
  (fails e0 (List.length (trace w)) = true ->
   control_loop swallow e0 ticks w
   = (Aborted ActuatorError,
      mkWorld (ses w) (trace w ++ [(EnterApi, false)]) (out w))) /\
  (fails e0 (List.length (trace w)) = false ->
   exists ok t,
     trace (snd (control_loop swallow e0 ticks w))
     = trace w
         ++ (EnterApi, true)
         :: (SetMatrixCharacter
               (patterns_get LED_PATTERNS (player_id (ses w)) "?")
               (color (ses w)), ok) :: t).
Proof.
  unfold control_loop, with_api.
  split; intros Henter; unfold api at 1; rewrite Henter; [reflexivity |].
  set (w1 := record_call EnterApi true w).
  assert (Hd : exists ok,
             fst (display_number e0 w1) = Ret tt /\
             trace (snd (display_number e0 w1))
             = trace w
                 ++ [(EnterApi, true);
                     (SetMatrixCharacter
                        (patterns_get LED_PATTERNS (player_id (ses w)) "?")
                        (color (ses w)), ok)]).
  { unfold w1, display_number, try_except, bind, get, api, print,
      record_call.
    cbn [ses trace out].
    destruct (fails e0 (List.length (trace w ++ [(EnterApi, true)])));
      cbn [fst snd trace];
      eexists; rewrite <- app_assoc; split; reflexivity. }
  destruct Hd as (ok & Hret & Htrace).
  destruct (display_number e0 w1) as [[[] | x] w2]; cbn [fst snd] in *;
    [| discriminate].
  destruct (preserves_while_running _ (trace_prefix_tick (trace w2)) ticks w2)
    as [t Ht].
  { exists []. rewrite app_nil_r. reflexivity. }
  exists ok.
  destruct (while_running ticks w2) as [[ | | x] w3]; cbn [snd] in Ht.
  - exists t. cbn [snd]. rewrite Ht, Htrace, <- app_assoc. reflexivity.
  - exists (t ++ [(ExitApi, negb (fails e0 (List.length (trace w3))))]).
    unfold api, record_call.
    destruct (fails e0 (List.length (trace w3))); cbn [snd trace negb];
      rewrite Ht, Htrace, <- !app_assoc; reflexivity.
  - exists (t ++ [(ExitApi, negb (fails e0 (List.length (trace w3))))]).
    unfold api, record_call.
    destruct (fails e0 (List.length (trace w3))); [| destruct swallow];
      cbn [snd trace negb];
      rewrite Ht, Htrace, <- !app_assoc; reflexivity.
Qed.

(** ** The battery step *)

(** The battery step never raises.  When at least 30 seconds have passed
    since [last_battery_check] it reads the voltage first and sets the
    timestamp to the current time, changing nothing else in the session;
    otherwise it does nothing at all.  In particular a clock that runs
    backwards never triggers a check. *)
Theorem battery_step_when_due (e : Env) (w : World) (now : Q) :
  fst (battery_step now e w) = Ret tt /\
  ((30 <= now - last_battery_check (ses w))%Q ->
   ses (snd (battery_step now e w)) = with_last_battery_check now (ses w) /\
   exists ok rest,
     trace (snd (battery_step now e w))
     = trace w ++ (GetBatteryVoltage, ok) :: rest) /\
  ((now - last_battery_check (ses w) < 30)%Q ->
   battery_step now e w = (Ret tt, w)).
Proof.
  split; [| split].
  - unfold battery_step. unfold bind at 1. unfold get at 1.
    destruct (Num.geb _ _); [| reflexivity].
    cbn [when]. unfold bind.
    destruct (check_battery_total e w) as [Hret _].
    destruct (check_battery e w) as [[[] | x] w1]; cbn [fst] in *;
      [reflexivity | discriminate].
  - intros Hdue. rewrite (battery_step_due e w now Hdue). cbn [snd ses trace].
    split; [reflexivity |].
    destruct (fails e (List.length (trace w))) eqn:Hf.
    + rewrite (check_battery_read_fails e w Hf). cbn. eauto.
    + rewrite (check_battery_read_ok e w Hf). eauto.
  - apply battery_step_not_due.
Qed.

(** ** The display *)

Lemma glyph_of_player (pid : Z) :
  (1 <= pid <= 5 -> patterns_get LED_PATTERNS pid "?" = digit_string pid) /\
  (~ (1 <= pid <= 5) -> patterns_get LED_PATTERNS pid "?" = "?"%string).
Proof.
  split.
  - intros H.
    assert (Hc : pid = 1 \/ pid = 2 \/ pid = 3 \/ pid = 4 \/ pid = 5) by lia.
    destruct Hc as [-> | [-> | [-> | [-> | ->]]]]; reflexivity.
  - intros H. unfold LED_PATTERNS. cbn [patterns_get].
    repeat match goal with
           | |- context [Z.eqb ?a pid] =>
               destruct (Z.eqb_spec a pid); [lia |]
           end.
    reflexivity.
Qed.

(** [display_number] always returns; it makes exactly one robot call,
    showing in the session's colour the digit of [player_id] when that is
    1 to 5 and a question mark for any other player number; a failure is
    logged and nothing else changes. *)
Theorem display_number_glyph (e : Env) (w : World) :
  exists ch : string,
    (1 <= player_id (ses w) <= 5 -> ch = digit_string (player_id (ses w))) /\
    (~ (1 <= player_id (ses w) <= 5) -> ch = "?"%string) /\
    display_number e w
    = if fails e (List.length (trace w))
      then (Ret tt,
            mkWorld (ses w)
              (trace w ++ [(SetMatrixCharacter ch (color (ses w)), false)])
              (out w ++ [MsgDisplayFailed]))
      else (Ret tt,
            mkWorld (ses w)
              (trace w ++ [(SetMatrixCharacter ch (color (ses w)), true)])
              (out w)).
Proof.
  exists (patterns_get LED_PATTERNS (player_id (ses w)) "?").
  destruct (glyph_of_player (player_id (ses w))) as [Hin Hout].
  split; [exact Hin |]. split; [exact Hout |].
  unfold display_number, try_except, bind, get, api, print, record_call.
  cbn [ses trace out].
  destruct (fails e (List.length (trace w))); reflexivity.
Qed.

(** ** Calibration as a round trip *)

Lemma exit_calibration_ok (e : Env) (w : World) :
  fails e (List.length (trace w)) = false ->
  exit_calibration e w
  = (Ret tt,
     mkWorld
       (with_game_start_time (clock e)
          (with_game_on true
             (with_base_heading (Num.py_mod (base_heading (ses w)) 360)
                (with_calibration_mode false (ses w)))))
       (trace w ++ [(SetFrontLed (RGB 0 255 0), true)])
       (out w ++ [MsgCalibrationComplete])).
Proof.
  intros Hled.
  unfold exit_calibration, bind, modify, api, get, ask, print, record_call.
  cbn [ses trace out]. rewrite Hled. reflexivity.
Qed.

Lemma enter_calibration_int (e : Env) (w : World) (x : Q) (n : Z) :
  (forall n, fails e n = false) ->
  base_heading (ses w) = inject_Z n ->
  exists n' : Z,
    enter_calibration x e w
    = (Ret tt,
       mkWorld (with_base_heading (inject_Z n')
                  (with_calibration_mode true (ses w)))
         (trace w ++ [ (SetSpeed 0, true); (SetFrontLed (RGB 255 0 0), true);
                       (SetHeading (inject_Z n'), true) ])
         (out w ++ [MsgCalibrating (inject_Z n')])) /\
    ((x < -0.7)%Q -> n' = n - 5) /\
    ((0.7 < x)%Q -> n' = n + 5) /\
    ((-0.7 <= x)%Q -> (x <= 0.7)%Q -> n' = n).
Proof.
  intros Hok Hint. unfold enter_calibration.
  destruct (Num.ltb x (-0.7)) eqn:Hlo; [| destruct (Num.gtb x 0.7) eqn:Hhi].
  - exists (n - 5). split.
    + rewrite <- sub_int, <- Hint. run_calls Hok. reflexivity.
    + apply ltb_lt in Hlo. repeat split; intros; try reflexivity; lra.
  - exists (n + 5). split.
    + rewrite <- add_int, <- Hint. run_calls Hok. reflexivity.
    + apply gtb_gt in Hhi. apply ltb_ge in Hlo.
      repeat split; intros; try reflexivity; lra.
  - exists n. split.
    + rewrite <- Hint. run_calls Hok. destruct w as [[] ? ?]. reflexivity.
    + apply gtb_le in Hhi. apply ltb_ge in Hlo.
      repeat split; intros; try reflexivity; lra.
Qed.

(** Entering and leaving calibration through [toggle_calibration], with a
    robot that answers and an integer [base_heading] [n] (in the range
    where every integer is a float): the first toggle switches calibration
    on, the second switches it off, starts the game, stamps the start
    time, shows green and leaves [base_heading] at [(n - 5) mod 360] or
    [(n + 5) mod 360] when the stick was beyond the deadzone to the left
    or right at entry, and at [n mod 360] when it was centred, which is
    [n] itself when [n] was already in [[0, 360)]. *)
Theorem calibration_round_trip (e1 e2 : Env) (w : World) (x1 x2 : Q)
    (n : Z) :
  calibration_mode (ses w) = false ->
  (forall n, fails e1 n = false) ->
  (forall n, fails e2 n = false) ->
  base_heading (ses w) = inject_Z n ->
  - 2 ^ 52 <= n <= 2 ^ 52 ->
  calibration_mode (ses (snd (toggle_calibration x1 e1 w))) = true /\
  fst (toggle_calibration x2 e2 (snd (toggle_calibration x1 e1 w))) = Ret tt /\
  (let w2 := snd (toggle_calibration x2 e2 (snd (toggle_calibration x1 e1 w)))
   in
   calibration_mode (ses w2) = false /\
   game_on (ses w2) = true /\
   game_start_time (ses w2) = clock e2 /\
   front_led (trace w2) = Some led_green /\
   ((x1 < -0.7)%Q -> base_heading (ses w2) = inject_Z ((n - 5) mod 360)) /\
   ((0.7 < x1)%Q -> base_heading (ses w2) = inject_Z ((n + 5) mod 360)) /\
   ((-0.7 <= x1)%Q -> (x1 <= 0.7)%Q ->
    base_heading (ses w2) = inject_Z (n mod 360) /\
    (0 <= n < 360 -> base_heading (ses w2) = base_heading (ses w)))).
Proof.
  intros Hcal Hok1 Hok2 Hint _.
  assert (Hfirst : toggle_calibration x1 e1 w = enter_calibration x1 e1 w).
  { unfold toggle_calibration. unfold bind at 1. unfold get at 1.
    rewrite Hcal. reflexivity. }
  destruct (enter_calibration_int e1 w x1 n Hok1 Hint)
    as (n' & Henter & Hlo & Hhi & Hmid).
  rewrite Hfirst, Henter. cbn [snd].
  set (w1 := mkWorld _ _ _).
  assert (Hsecond : toggle_calibration x2 e2 w1 = exit_calibration e2 w1).
  { unfold toggle_calibration. unfold bind at 1. unfold get at 1.
    reflexivity. }
  rewrite Hsecond, (exit_calibration_ok e2 w1 (Hok2 _)).
  cbn [fst snd ses trace out base_heading calibration_mode game_on
       game_start_time with_game_start_time with_game_on with_base_heading
       with_calibration_mode w1].
  rewrite py_mod_int.
  split; [reflexivity |]. split; [reflexivity |].
  split; [reflexivity |]. split; [reflexivity |]. split; [reflexivity |].
  split.
  { rewrite front_led_app. reflexivity. }
  split; [| split].
  - intros Hx. rewrite (Hlo Hx). reflexivity.
  - intros Hx. rewrite (Hhi Hx). reflexivity.
  - intros Hx1 Hx2. rewrite (Hmid Hx1 Hx2). split; [reflexivity |].
    intros Hdial. rewrite Z.mod_small by exact Hdial.
    symmetry; exact Hint.
Qed.

Lemma calibration_round_trip_witness :
  calibration_mode (ses facing_east) = false /\
  (forall n, fails quiet n = false) /\
  base_heading (ses facing_east) = inject_Z 90 /\
  - 2 ^ 52 <= 90 <= 2 ^ 52 /\
  calibration_mode (ses (snd (toggle_calibration 0 quiet facing_east)))
  = true /\
  fst (toggle_calibration 0 quiet
         (snd (toggle_calibration 0 quiet facing_east))) = Ret tt.
Proof.
  assert (Hcal : calibration_mode (ses facing_east) = false) by reflexivity.
  assert (Hok : forall n, fails quiet n = false) by reflexivity.
  assert (Hint : base_heading (ses facing_east) = inject_Z 90) by reflexivity.
  assert (Hb : - 2 ^ 52 <= 90 <= 2 ^ 52) by (cbn; lia).
  split; [exact Hcal |]. split; [exact Hok |]. split; [exact Hint |].
  split; [exact Hb |].
  pose proof (calibration_round_trip quiet quiet facing_east 0 0 90
                Hcal Hok Hok Hint Hb) as (H1 & H2 & _).
  split; [exact H1 | exact H2].
Defined.

(** If the LED call of [exit_calibration] fails, the exception leaves the
    method with calibration already off but [base_heading] not reduced and
    the game not started; a following [toggle_calibration] therefore
    enters calibration again instead of completing the exit. *)
Theorem exit_calibration_led_failure (e : Env) (w : World) :
  fails e (List.length (trace w)) = true ->
  exit_calibration e w
  = (Raise ActuatorError,
     mkWorld (with_calibration_mode false (ses w))
       (trace w ++ [(SetFrontLed (RGB 0 255 0), false)]) (out w)) /\
  base_heading (ses (snd (exit_calibration e w))) = base_heading (ses w) /\
  game_on (ses (snd (exit_calibration e w))) = game_on (ses w) /\
  (forall (x : Q) (e' : Env),
      toggle_calibration x e' (snd (exit_calibration e w))
      = enter_calibration x e' (snd (exit_calibration e w))).
Proof.
  intros Hled.
  assert (Heq : exit_calibration e w
                = (Raise ActuatorError,
                   mkWorld (with_calibration_mode false (ses w))
                     (trace w ++ [(SetFrontLed (RGB 0 255 0), false)])
                     (out w))).
  { unfold exit_calibration, bind, modify, api, record_call.
    cbn [ses trace out]. rewrite Hled. reflexivity. }
  rewrite Heq. cbn [snd ses].
  split; [reflexivity |]. split; [reflexivity |]. split; [reflexivity |].
  intros x e'. unfold toggle_calibration.
  unfold bind at 1. unfold get at 1. reflexivity.
Qed.

Lemma exit_calibration_led_failure_witness :
  fails dead_battery_line (List.length (trace fresh)) = true /\
  base_heading (ses (snd (exit_calibration dead_battery_line fresh)))
  = base_heading (ses fresh).
Proof.
  assert (Hled : fails dead_battery_line (List.length (trace fresh)) = true)
    by reflexivity.
  split; [exact Hled |].
  exact (proj1 (proj2 (exit_calibration_led_failure dead_battery_line fresh
                         Hled))).
Defined.

(** ** More on the sequence detector *)

Lemma konami_code_range (i : nat) (k : Z) :
  nth_error KONAMI_CODE i = Some k -> 10 <= k <= 15.
Proof.
  intros H.
  do 10 (destruct i as [| i]; [cbn in H; injection H as <-; lia |]).
  destruct i; discriminate H.
Qed.

(** A held button that is not part of the sequence resets the cursor. *)
Lemma on_button_pressed_reset (b : Z) (e : Env) (w : World) :
  cursor_ok (ses w) ->
  0 <= b <= 9 ->
  on_button_pressed b e w
  = (Ret tt, mkWorld (with_konami_index 0 (ses w)) (trace w) (out w)).
Proof.
  intros Hcur Hb. unfold cursor_ok in Hcur.
  unfold on_button_pressed, bind, get, list_index.
  destruct (nth_error KONAMI_CODE (konami_index (ses w))) as [k |] eqn:Hk.
  2: { apply nth_error_None in Hk. lia. }
  apply konami_code_range in Hk. cbn [ret].
  destruct (Z.eqb_spec b k); [lia | reflexivity].
Qed.

Lemma for_each_reset (e : Env) (l : list (string * Z)) :
  forall w : World,
    cursor_ok (ses w) ->
    (forall b, In b (map snd l) -> get_button e b = true -> 0 <= b <= 9) ->
    for_each l (fun '(_, btn_id) =>
                  pressed <- ask (fun e => get_button e btn_id) ;;
                  when pressed (on_button_pressed btn_id)) e w
    = (Ret tt,
       if existsb (get_button e) (map snd l)
       then mkWorld (with_konami_index 0 (ses w)) (trace w) (out w)
       else w).
Proof.
  induction l as [| [name b] rest IH]; intros w Hcur Hheld.
  - reflexivity.
  - cbn [for_each map snd existsb].
    unfold bind at 1. unfold bind at 1. unfold ask at 1.
    destruct (get_button e b) eqn:Hb; cbn [when orb ret].
    + rewrite (on_button_pressed_reset b e w Hcur)
        by (apply Hheld; [left; reflexivity | exact Hb]).
      rewrite IH.
      * destruct (existsb (get_button e) (map snd rest)); reflexivity.
      * unfold cursor_ok. cbn. lia.
      * intros b' Hin Hp. apply Hheld; [right; exact Hin | exact Hp].
    + apply IH; [exact Hcur |].
      intros b' Hin Hp. apply Hheld; [right; exact Hin | exact Hp].
Qed.

(** On a tick where none of the six buttons of the sequence (UP, DOWN,
    LEFT, RIGHT, B, A) is held: if some other known button is held, such as
    a speed preset, the cursor goes back to 0 and the progress is lost; if
    no known button is held the detector changes nothing, so the progress
    survives idle ticks.  No robot call is made either way. *)
Theorem other_buttons_reset_cursor (e : Env) (w : World) :
  cursor_ok (ses w) ->
  (forall b, In b button_ids -> get_button e b = true -> 0 <= b <= 9) ->
  check_konami_code e w
  = (Ret tt,
     if existsb (get_button e) button_ids
     then mkWorld (with_konami_index 0 (ses w)) (trace w) (out w)
     else w).
Proof.
  intros Hcur Hheld. unfold check_konami_code, button_ids.
  apply for_each_reset; assumption.
Qed.

Lemma other_buttons_reset_cursor_witness :
  cursor_ok (ses almost) /\
  (forall b, In b button_ids -> get_button (press 0) b = true -> 0 <= b <= 9) /\
  konami_index (ses almost) = 9%nat /\
  konami_index (ses (snd (check_konami_code (press 0) almost))) = 0%nat.
Proof.
  assert (Hcur : cursor_ok (ses almost))
    by (unfold cursor_ok; vm_compute; lia).
  assert (Hheld : forall b, In b button_ids ->
                            get_button (press 0) b = true -> 0 <= b <= 9).
  { intros b _ Hb. cbn in Hb. apply Z.eqb_eq in Hb. lia. }
  split; [exact Hcur |]. split; [exact Hheld |]. split; [reflexivity |].
  rewrite (other_buttons_reset_cursor (press 0) almost Hcur Hheld).
  reflexivity.
Defined.

(** One held button, for any environment: when the body returns, the
    cursor and the completion count moved as [detector_step] says. *)
Lemma on_button_pressed_view (b : Z) (e : Env) (w : World) :
  cursor_ok (ses w) ->
  fst (on_button_pressed b e w) = Ret tt ->
  cursor_ok (ses (snd (on_button_pressed b e w))) /\
  detector_view (snd (on_button_pressed b e w))
  = detector_step (detector_view w) b.
Proof.
  intros Hcur. unfold cursor_ok in *.
  unfold detector_view, detector_step, on_button_pressed, bind, get,
    list_index.
  destruct (nth_error KONAMI_CODE (konami_index (ses w))) as [k |] eqn:Hk.
  2: { apply nth_error_None in Hk. lia. }
  cbn [ret]. destruct (Z.eqb b k).
  2: { intros _. cbn. split; [lia | reflexivity]. }
  cbn [modify ses konami_index with_konami_index].
  destruct (Nat.eqb (S (konami_index (ses w))) (List.length KONAMI_CODE))
    eqn:Hlast; cbn [when ret].
  - unfold activate_cheat_mode, bind, modify, print, api, record_call.
    cbn [ses trace out].
    destruct (fails e (List.length (trace w))); cbn; [discriminate |].
    intros _. rewrite activations_app. cbn. rewrite Nat.add_1_r.
    split; [lia | reflexivity].
  - intros _. apply Nat.eqb_neq in Hlast. cbn in *. split; [lia | reflexivity].
Qed.

(** One turn of the loop of [check_konami_code]. *)
Lemma for_each_button_cons (e : Env) (name : string) (b : Z)
    (rest : list (string * Z)) (w : World) :
  for_each ((name, b) :: rest)
    (fun '(_, btn_id) =>
       pressed <- ask (fun e => get_button e btn_id) ;;
       when pressed (on_button_pressed btn_id)) e w
  = if get_button e b then
      match on_button_pressed b e w with
      | (Ret _, w1) =>
          for_each rest
            (fun '(_, btn_id) =>
               pressed <- ask (fun e => get_button e btn_id) ;;
               when pressed (on_button_pressed btn_id)) e w1
      | (Raise x, w1) => (Raise x, w1)
      end
    else
      for_each rest
        (fun '(_, btn_id) =>
           pressed <- ask (fun e => get_button e btn_id) ;;
           when pressed (on_button_pressed btn_id)) e w.
Proof.
  cbn [for_each]. unfold bind at 1. unfold bind at 1. unfold ask at 1.
  destruct (get_button e b); reflexivity.
Qed.

Lemma for_each_view (e : Env) (l : list (string * Z)) :
  forall w : World,
    cursor_ok (ses w) ->
    fst (for_each l (fun '(_, btn_id) =>
                       pressed <- ask (fun e => get_button e btn_id) ;;
                       when pressed (on_button_pressed btn_id)) e w) = Ret tt ->
    detector_view
      (snd (for_each l (fun '(_, btn_id) =>
                          pressed <- ask (fun e => get_button e btn_id) ;;
                          when pressed (on_button_pressed btn_id)) e w))
    = fold_left detector_step (filter (get_button e) (map snd l))
        (detector_view w).
Proof.
  induction l as [| [name b] rest IH]; intros w Hcur.
  - intros _. reflexivity.
  - rewrite for_each_button_cons. cbn [map snd filter].
    destruct (get_button e b) eqn:Hb; cbn [fold_left].
    + pose proof (on_button_pressed_view b e w Hcur) as Hstep.
      destruct (on_button_pressed b e w) as [[[] | x] w1]; cbn [fst snd] in *.
      * destruct (Hstep eq_refl) as [Hcur1 Hview1].
        intros Hret. rewrite <- Hview1. apply IH; assumption.
      * discriminate.
    + apply IH; exact Hcur.
Qed.

(** Several buttons held on one tick are all fed to the detector, in the
    order of the [BUTTONS] table: when [check_konami_code] returns, the
    cursor and the number of completions are those obtained by applying
    the one-button step to each held known button in ascending order of
    its identifier.  Buttons outside the table are never looked at. *)
Theorem detector_fan_out (e : Env) (w : World) :
  cursor_ok (ses w) ->
  fst (check_konami_code e w) = Ret tt ->
  detector_view (snd (check_konami_code e w))
  = fold_left detector_step (filter (get_button e) button_ids)
      (detector_view w).
Proof.
  intros Hcur Hret. unfold check_konami_code, button_ids in *.
  apply for_each_view; assumption.
Qed.

Lemma detector_fan_out_witness :
  cursor_ok (ses fresh) /\
  fst (check_konami_code all_held fresh) = Ret tt /\
  detector_view (snd (check_konami_code all_held fresh)) = (0%nat, 0%nat).
Proof.
  assert (Hcur : cursor_ok (ses fresh)) by (unfold cursor_ok; cbn; lia).
  assert (Hret : fst (check_konami_code all_held fresh) = Ret tt)
    by reflexivity.
  split; [exact Hcur |]. split; [exact Hret |].
  rewrite (detector_fan_out all_held fresh Hcur Hret). reflexivity.
Defined.

(** ** A failed activation *)

Lemma check_konami_code_only (b : Z) (e : Env) (w : World) :
  In b button_ids ->
  (forall z, In z button_ids -> get_button e z = Z.eqb z b) ->
  check_konami_code e w = on_button_pressed b e w.
Proof.
  intros Hb Hheld.
  unfold check_konami_code, BUTTONS. cbn [for_each].
  unfold bind, ask, when, ret.
  rewrite !Hheld by (unfold button_ids; cbn; tauto).
  unfold button_ids in Hb. cbn in Hb.
  repeat (destruct Hb as [<- | Hb]; [
    cbn [Z.eqb Pos.eqb];
    destruct (on_button_pressed _ e w) as [[[] | x] w']; reflexivity |]).
  contradiction.
Qed.

Lemma for_each_stuck (e : Env) (l : list (string * Z)) (w : World) :
  konami_index (ses w) = List.length KONAMI_CODE ->
  existsb (get_button e) (map snd l) = true ->
  for_each l (fun '(_, btn_id) =>
                pressed <- ask (fun e => get_button e btn_id) ;;
                when pressed (on_button_pressed btn_id)) e w
  = (Raise IndexError, w).
Proof.
  intros Hidx. induction l as [| [name b] rest IH]; intros Hheld.
  - discriminate.
  - rewrite for_each_button_cons. cbn [map snd existsb] in Hheld.
    destruct (get_button e b); cbn [orb] in Hheld.
    + unfold on_button_pressed, bind, get, list_index. rewrite Hidx.
      reflexivity.
    + apply IH; exact Hheld.
Qed.

(** When the last symbol of the sequence is matched but the LED call of
    [activate_cheat_mode] fails: cheat mode is on and the speed is 255 all
    the same, the exception leaves [check_konami_code], and the cursor is
    left at 10, past the end of the sequence.  Any later call of
    [check_konami_code] with a known button held then raises an index
    error without changing anything. *)
Theorem activation_led_failure (e : Env) (w : World) :
  konami_index (ses w) = 9%nat ->
  (forall z, In z button_ids -> get_button e z = Z.eqb z 15) ->
  fails e (List.length (trace w)) = true ->
  check_konami_code e w
  = (Raise ActuatorError,
     mkWorld (with_speed 255
                (with_cheat_mode true (with_konami_index 10 (ses w))))
       (trace w ++ [(SetFrontLed (RGB 255 0 255), false)])
       (out w ++ [MsgCheatActivated])) /\
  (forall e' : Env,
      existsb (get_button e') button_ids = true ->
      check_konami_code e' (snd (check_konami_code e w))
      = (Raise IndexError, snd (check_konami_code e w))).
Proof.
  intros Hidx Hheld Hled.
  assert (Hin : In 15 button_ids) by (vm_compute; tauto).
  assert (Heq : check_konami_code e w
                = (Raise ActuatorError,
                   mkWorld (with_speed 255
                              (with_cheat_mode true
                                 (with_konami_index 10 (ses w))))
                     (trace w ++ [(SetFrontLed (RGB 255 0 255), false)])
                     (out w ++ [MsgCheatActivated]))).
  { rewrite (check_konami_code_only 15 e w Hin Hheld).
    unfold on_button_pressed, bind, get, list_index. rewrite Hidx.
    cbn [nth_error KONAMI_CODE ret].
    change (Z.eqb 15 (button "A")) with true. cbn iota.
    unfold activate_cheat_mode, bind, modify, print, api, record_call, when.
    change (List.length KONAMI_CODE) with 10%nat.
    cbn [ses trace out konami_index with_konami_index Nat.eqb].
    rewrite Hled. reflexivity. }
  split; [exact Heq |].
  intros e' Hany. rewrite Heq. cbn [snd].
  unfold check_konami_code, button_ids in *.
  apply for_each_stuck; [reflexivity | exact Hany].
Qed.

Lemma activation_led_failure_witness :
  konami_index (ses almost) = 9%nat /\
  (forall z, In z button_ids ->
             get_button last_symbol_led_down z = Z.eqb z 15) /\
  fails last_symbol_led_down (List.length (trace almost)) = true /\
  cheat_mode (ses (snd (check_konami_code last_symbol_led_down almost)))
  = true /\
  konami_index (ses (snd (check_konami_code last_symbol_led_down almost)))
  = 10%nat.
Proof.
  assert (Hidx : konami_index (ses almost) = 9%nat) by reflexivity.
  assert (Hheld : forall z, In z button_ids ->
                            get_button last_symbol_led_down z = Z.eqb z 15)
    by reflexivity.
  assert (Hled : fails last_symbol_led_down (List.length (trace almost))
                 = true) by reflexivity.
  split; [exact Hidx |]. split; [exact Hheld |]. split; [exact Hled |].
  rewrite (proj1 (activation_led_failure last_symbol_led_down almost
                    Hidx Hheld Hled)).
  split; reflexivity.
Defined.

(** ** Start-up *)

(** [main] enters the control loop exactly when a joystick is present and
    opens, discovery returns a robot and its API opens; and it never makes
    a robot call without entering the loop. *)
Theorem loop_entered_iff (st : Startup) (toy_name : option string)
    (joystick_id player : Z) :
  (loop_entered (main st toy_name joystick_id player) = true <->
   joystick_count st <> 0 /\
   open_joystick st joystick_id = true /\
   exists toy, snd (discover_toy st toy_name) = Some toy /\
               open_api st toy = true) /\
  (loop_entered (main st toy_name joystick_id player) = false ->
   robot_calls (main st toy_name joystick_id player) = []).
Proof.
  unfold main.
  destruct (Z.eqb_spec (joystick_count st) 0) as [Hc | Hc].
  { cbn. split; [| reflexivity]. split; [discriminate |].
    intros [H _]. contradiction. }
  destruct (open_joystick st joystick_id) eqn:Hjoy; cbn [negb].
  2: { cbn. split; [| reflexivity]. split; [discriminate |].
       intros (_ & H & _). discriminate. }
  destruct (discover_toy st toy_name) as [msgs1 toy]. cbn [snd].
  destruct toy as [toy |]; cbn [connect].
  2: { cbn. split; [| reflexivity]. split; [discriminate |].
       intros (_ & _ & t & H & _). discriminate. }
  destruct (open_api st toy) eqn:Hapi.
  - destruct (control_loop _ (env0 st) (tick_envs st) _) as [[ | | x] w'];
      cbn; (split; [| discriminate]);
      (split; [intros _; repeat split; try assumption; eauto | reflexivity]).
  - cbn. split; [| reflexivity]. split; [discriminate |].
    intros (_ & _ & t & Ht & Hopen). injection Ht as <-. congruence.
Qed.

(** ** The auto-straighten correction in general *)

(** The correction on integer headings whose difference is a multiple of
    5 (in the range where every integer is a float, where Python's
    arithmetic is exact): in cheat mode, with the stick pushed or pulled
    beyond 0.7 and the x-axis within 0.2, when [base_heading] is [n] and
    the robot reports [n + 5 k] with [k] not 0, the new [base_heading] is
    [n - k].  It moves away from the reported heading: the difference
    between the two was [5 k] and is now [6 k].  The new value is sent to
    the robot as it is. *)
Theorem auto_straighten_counter_steers (e : Env) (w : World) (x y : Q)
    (n k : Z) :
  cheat_mode (ses w) = true ->
  (0.7 < Qabs y)%Q ->
  (Qabs x < 0.2)%Q ->
  (forall n, fails e n = false) ->
  base_heading (ses w) = inject_Z n ->
  (heading_reading e == inject_Z (n + 5 * k))%Q ->
  k <> 0 ->
  - 2 ^ 52 <= n <= 2 ^ 52 ->
  - 2 ^ 52 <= n + 5 * k <= 2 ^ 52 ->
  auto_straighten x y e w
  = (Ret tt,
     mkWorld (with_base_heading (inject_Z (n - k)) (ses w))
       (trace w ++ [(GetHeading, true); (SetHeading (inject_Z (n - k)), true)])
       (out w)) /\
  (heading_reading e - inject_Z (n - k) == inject_Z (6 * k))%Q.
Proof.
  intros Hcheat Hy Hx Hok Hint Hcur Hk _ _.
  pose proof (straighten_guard _ x y Hcheat Hy Hx) as Hguard.
  assert (Hdelta : Num.sub (heading_reading e) (inject_Z n)
                   = inject_Z (5 * k)).
  { unfold Num.sub. rewrite <- (Qred_int (5 * k)). apply Qred_complete.
    rewrite Hcur. unfold Qminus.
    rewrite <- inject_Z_opp, <- inject_Z_plus.
    apply inject_Z_injective. lia. }
  assert (Hbig : Num.gtb (Num.abs (inject_Z (5 * k))) 3 = true).
  { apply gtb_gt. unfold Num.abs, inject_Z, Qabs.
    change 3%Q with (inject_Z 3). change (Z.abs (5 * k) # 1) with
      (inject_Z (Z.abs (5 * k))).
    rewrite <- Zlt_Qlt. lia. }
  assert (Hcorr : Num.add (inject_Z n)
                    (Num.mul (Num.neg (inject_Z (5 * k))) 0.2)
                  = inject_Z (n - k)).
  { assert (Hm : Num.mul (Num.neg (inject_Z (5 * k))) 0.2 = inject_Z (- k)).
    { unfold Num.mul, Num.neg. rewrite <- (Qred_int (- k)).
      apply Qred_complete. rewrite Qred_correct.
      rewrite inject_Z_opp, inject_Z_mult.
      change (inject_Z 5) with 5%Q. lra. }
    rewrite Hm, add_int. reflexivity. }
  split.
  - unfold auto_straighten.
    unfold bind at 1. unfold get at 1. rewrite Hguard. cbn [when].
    unfold bind at 1. unfold api_read at 1. rewrite Hok.
    unfold bind at 1. unfold get at 1. cbn [ses record_call].
    rewrite Hint, Hdelta, Hbig. cbn [when].
    run_calls Hok. rewrite Hint, Hcorr. reflexivity.
  - rewrite Hcur. unfold Qminus.
    rewrite <- inject_Z_opp, <- inject_Z_plus.
    apply inject_Z_injective. lia.
Qed.

Lemma auto_straighten_counter_steers_witness :
  cheat_mode (ses cheating) = true /\
  (0.7 < Qabs (-1))%Q /\
  (Qabs 0 < 0.2)%Q /\
  (forall n, fails drifting n = false) /\
  base_heading (ses cheating) = inject_Z 0 /\
  (heading_reading drifting == inject_Z (0 + 5 * 2))%Q /\
  2 <> 0 /\
  - 2 ^ 52 <= 0 <= 2 ^ 52 /\
  - 2 ^ 52 <= 0 + 5 * 2 <= 2 ^ 52 /\
  auto_straighten 0 (-1) drifting cheating
  = (Ret tt,
     mkWorld (with_base_heading (inject_Z (0 - 2)) (ses cheating))
       (trace cheating
          ++ [(GetHeading, true); (SetHeading (inject_Z (0 - 2)), true)])
       (out cheating)).
Proof.
  assert (Hc : cheat_mode (ses cheating) = true) by reflexivity.
  assert (Hy : (0.7 < Qabs (-1))%Q) by (cbn; lra).
  assert (Hx : (Qabs 0 < 0.2)%Q) by (cbn; lra).
  assert (Hok : forall n, fails drifting n = false) by reflexivity.
  assert (Hint : base_heading (ses cheating) = inject_Z 0) by reflexivity.
  assert (Hcur : (heading_reading drifting == inject_Z (0 + 5 * 2))%Q)
    by reflexivity.
  assert (Hk : 2 <> 0) by discriminate.
  assert (Hb1 : - 2 ^ 52 <= 0 <= 2 ^ 52) by (cbn; lia).
  assert (Hb2 : - 2 ^ 52 <= 0 + 5 * 2 <= 2 ^ 52) by (cbn; lia).
  do 9 (split; [assumption |]).
  exact (proj1 (auto_straighten_counter_steers drifting cheating 0 (-1) 0 2
                  Hc Hy Hx Hok Hint Hcur Hk Hb1 Hb2)).
Defined.

(** ** What the loop leaves alone *)

Lemma bind_get {A B} (f : Session -> A) (k : A -> M B) (e : Env)
    (w : World) :
  bind (get f) k e w = k (f (ses w)) e w.
Proof. reflexivity. Qed.

Lemma reference_kept_auto_straighten (h0 : Q) (x y : Q) :
  preserves (fun w => calibration_mode (ses w) = false /\
                      (cheat_mode (ses w) = true \/
                       base_heading (ses w) = h0))
    (auto_straighten x y).
Proof.
  intros e w [Hcal Hh]. unfold auto_straighten. rewrite bind_get.
  destruct (cheat_mode (ses w)) eqn:Hcheat.
  - match goal with
    | |- context [snd (?m e w)] =>
        assert (Hm : preserves
                       (fun w' => calibration_mode (ses w') = false /\
                                  cheat_mode (ses w') = true) m)
    end.
    { preserve; cbn; intros; tauto. }
    destruct (Hm e w (conj Hcal Hcheat)) as [H1 H2]. split; [exact H1 |].
    left; exact H2.
  - cbn [andb when ret snd]. split; [exact Hcal |].
    destruct Hh as [Hh | Hh]; [congruence | right; exact Hh].
Qed.

Lemma reference_kept_movement (h0 : Q) (x y : Q) :
  preserves (fun w => calibration_mode (ses w) = false /\
                      (cheat_mode (ses w) = true \/
                       base_heading (ses w) = h0))
    (movement_control x y).
Proof.
  intros e w [Hcal Hh]. unfold movement_control. rewrite bind_get, Hcal.
  match goal with
  | |- context [snd (?m e w)] =>
      assert (Hm : preserves
                     (fun w' => calibration_mode (ses w') = false /\
                                (cheat_mode (ses w') = true \/
                                 base_heading (ses w') = h0)) m)
  end.
  { unfold move; preserve; cbn; intros; tauto. }
  apply (Hm e w). split; assumption.
Qed.

Lemma reference_kept_tick (h0 : Q) :
  preserves (fun w => calibration_mode (ses w) = false /\
                      (cheat_mode (ses w) = true \/
                       base_heading (ses w) = h0)) tick.
Proof.
  unfold tick, battery_step, display_number, check_konami_code,
    on_button_pressed, check_battery, speed_presets, activate_cheat_mode.
  preserve;
    try apply reference_kept_movement;
    try apply reference_kept_auto_straighten;
    cbn; intros; tauto.
Qed.

Lemma game_flags_tick (g : bool) (t : Q) (p : Z) :
  preserves (fun w => game_on (ses w) = g /\ game_start_time (ses w) = t /\
                      player_id (ses w) = p) tick.
Proof.
  unfold_methods; unfold speed_presets, activate_cheat_mode;
    preserve; cbn; intros; tauto.
Qed.

(** Started with calibration off, the loop never switches calibration on,
    never changes [game_on], [game_start_time] or [player_id], and never
    moves [base_heading] unless cheat mode has been activated: in a
    session created by [main], "forward" stays heading 0 for as long as
    the cheat code has not been entered. *)
Theorem loop_keeps_reference (ticks : list Env) (w : World) :
  calibration_mode (ses w) = false ->
  calibration_mode (ses (snd (while_running ticks w))) = false /\
  game_on (ses (snd (while_running ticks w))) = game_on (ses w) /\
  game_start_time (ses (snd (while_running ticks w)))
  = game_start_time (ses w) /\
  player_id (ses (snd (while_running ticks w))) = player_id (ses w) /\
  (cheat_mode (ses (snd (while_running ticks w))) = false ->
   base_heading (ses (snd (while_running ticks w))) = base_heading (ses w)).
Proof.
  intros Hcal.
  destruct (preserves_while_running _
              (reference_kept_tick (base_heading (ses w))) ticks w)
    as [Hcal' Hh]; [split; [exact Hcal | right; reflexivity] |].
  destruct (preserves_while_running _
              (game_flags_tick (game_on (ses w)) (game_start_time (ses w))
                 (player_id (ses w))) ticks w)
    as (Hg & Ht & Hp); [repeat split |].
  split; [exact Hcal' |]. split; [exact Hg |]. split; [exact Ht |].
  split; [exact Hp |].
  intros Hno. destruct Hh as [Hh | Hh]; [congruence | exact Hh].
Qed.

Lemma loop_keeps_reference_witness :
  calibration_mode (ses fresh) = false /\
  calibration_mode (ses (snd (while_running [all_held; drifting] fresh)))
  = false /\
  game_on (ses (snd (while_running [all_held; drifting] fresh)))
  = game_on (ses fresh).
Proof.
  assert (Hcal : calibration_mode (ses fresh) = false) by reflexivity.
  split; [exact Hcal |].
  pose proof (loop_keeps_reference [all_held; drifting] fresh Hcal)
    as (H1 & H2 & _).
  split; [exact H1 | exact H2].
Defined.

(** ** The display refresh at the end of a tick *)

Lemma tick_split (e : Env) (w : World) :
  tick e w = bind tick_before_display (fun _ => display_number) e w.
Proof.
  unfold tick, tick_before_display, bind, ask.
  repeat match goal with
         | |- context [match ?m e ?w' with _ => _ end] =>
             destruct (m e w') as [[[] | ?] ?]
         end; reflexivity.
Qed.

Lemma before_display_keeps (p : list Event) (pid : Z) :
  preserves (fun w => (exists t, trace w = p ++ t) /\ player_id (ses w) = pid)
    tick_before_display.
Proof.
  unfold tick_before_display; unfold_methods;
    unfold speed_presets, activate_cheat_mode;
    preserve; cbn; intros; try tauto.
  all: match goal with
       | H : (exists t, _ = _ ++ t) /\ _ |- _ =>
           let t := fresh "t" in
           destruct H as [[t ->] ?]; split; [| assumption];
           eexists; rewrite <- app_assoc; reflexivity
       end.
Qed.

(** Every tick that returns ends with the display refresh: the last robot
    call of the tick shows the glyph of the player in the colour the
    session has at the end of the tick, after any preset of that tick. *)
Theorem tick_ends_with_display (e : Env) (w : World) :
  fst (tick e w) = Ret tt ->
  exists t ok,
    trace (snd (tick e w))
    = trace w ++ t
        ++ [(SetMatrixCharacter
               (patterns_get LED_PATTERNS (player_id (ses w)) "?")
               (color (ses (snd (tick e w)))), ok)].
Proof.
  rewrite tick_split. unfold bind.
  pose proof (before_display_keeps (trace w) (player_id (ses w)) e w) as Hk.
  destruct (tick_before_display e w) as [[[] | x] w1]; cbn [fst snd] in *;
    [| discriminate].
  destruct Hk as [[t Ht] Hp].
  { split; [exists []; rewrite app_nil_r |]; reflexivity. }
  intros _.
  unfold display_number, try_except, bind, get, api, print, record_call.
  cbn [ses trace out].
  destruct (fails e (List.length (trace w1))); cbn [fst snd ses trace];
    rewrite Ht, Hp, <- app_assoc; eauto.
Qed.

Lemma tick_ends_with_display_witness :
  fst (tick (press 2) fresh) = Ret tt /\
  exists t ok,
    trace (snd (tick (press 2) fresh))
    = trace fresh ++ t
        ++ [(SetMatrixCharacter
               (patterns_get LED_PATTERNS (player_id (ses fresh)) "?")
               (color (ses (snd (tick (press 2) fresh)))), ok)].
Proof.
  assert (Hret : fst (tick (press 2) fresh) = Ret tt) by reflexivity.
  split; [exact Hret |].
  exact (tick_ends_with_display (press 2) fresh Hret).
Defined.

(** ** The speeds of the session and of the commands *)

Lemma preserves_api_call (J : World -> Prop) (c : Call) :
  (forall w ok, J w -> J (record_call c ok w)) -> preserves J (api c).
Proof.
  intros Hc e w H. unfold api.
  destruct (fails e (List.length (trace w))); apply Hc; exact H.
Qed.

Lemma preserves_api_read_call (J : World -> Prop) (c : Call)
    (read : Env -> Q) :
  (forall w ok, J w -> J (record_call c ok w)) ->
  preserves J (api_read c read).
Proof.
  intros Hc e w H. unfold api_read.
  destruct (fails e (List.length (trace w))); apply Hc; exact H.
Qed.

(** As [preserve_step], with one obligation per robot call. *)
Ltac preserve_call_step :=
  match goal with
  | |- preserves _ (api _) => apply preserves_api_call
  | |- preserves _ (api_read _ _) => apply preserves_api_read_call
  | |- preserves _ _ => preserve_step
  end.

Lemma speeds_sent_ok_snoc (t : list Event) (c : Call) (ok : bool) :
  speeds_sent_ok t ->
  (forall v, c = SetSpeed v -> v = 0 \/ preset_speed v \/ v = 255) ->
  speeds_sent_ok (t ++ [(c, ok)]).
Proof.
  intros Ht Hc v ok' Hin. apply in_app_or in Hin.
  destruct Hin as [Hin | [Heq | []]].
  - exact (Ht v ok' Hin).
  - injection Heq as Hcv _. apply Hc. exact Hcv.
Qed.

Lemma speed_ok_allowed (s : Session) :
  speed_ok s -> speed s = 0 \/ preset_speed (speed s) \/ speed s = 255.
Proof. intros [[_ H] | [_ H]]; tauto. Qed.

(** Solves the obligations left by the session updates, prints and robot
    calls that do not touch the speed. *)
Ltac speed_side :=
  cbn; intros;
  repeat match goal with
         | H : _ /\ _ |- _ => destruct H
         end;
  try (split; [assumption |]);
  try assumption;
  try (apply speeds_sent_ok_snoc;
       [assumption | intros ? Heq; first [discriminate Heq
                                         | injection Heq as <-; tauto]]).

Lemma speeds_activate :
  preserves (fun w => speed_ok (ses w) /\ speeds_sent_ok (trace w))
    activate_cheat_mode.
Proof.
  intros e w [_ Ht].
  unfold activate_cheat_mode, bind, modify, print, api, record_call.
  cbn [ses trace out].
  destruct (fails e (List.length (trace w))); cbn [snd ses trace];
    (split; [right; split; reflexivity |]);
    apply speeds_sent_ok_snoc; [assumption | discriminate
                               | assumption | discriminate].
Qed.

Lemma speeds_presets :
  preserves (fun w => speed_ok (ses w) /\ speeds_sent_ok (trace w))
    speed_presets.
Proof.
  intros e w [Hs Ht]. unfold speed_presets. rewrite bind_get.
  destruct (cheat_mode (ses w)) eqn:Hcheat; cbn [negb when ret snd].
  - split; assumption.
  - unfold bind, ask, modify, ret.
    repeat match goal with
           | |- context [if ?c then _ else _] => destruct c
           end;
      cbn [snd ses trace]; (split; [| exact Ht]);
      try exact Hs;
      left; (split; [exact Hcheat |]); unfold preset_speed; cbn; tauto.
Qed.

Lemma speeds_movement (x y : Q) :
  preserves (fun w => speed_ok (ses w) /\ speeds_sent_ok (trace w))
    (movement_control x y).
Proof.
  intros e w [Hs Ht]. unfold movement_control. rewrite bind_get.
  pose proof (speed_ok_allowed _ Hs) as Hv.
  destruct (calibration_mode (ses w)).
  - match goal with
    | |- context [snd (?m e w)] =>
        assert (Hm : preserves
                       (fun w' => speed_ok (ses w')
                                  /\ speeds_sent_ok (trace w')) m)
    end.
    { unfold enter_calibration. repeat preserve_call_step; speed_side. }
    apply (Hm e w). split; assumption.
  - destruct (Num.gtb (Num.abs y) 0.7).
    + rewrite bind_get, bind_get.
      unfold move, bind, api, record_call. cbn [ses trace out].
      repeat match goal with
             | |- context [if fails ?e' ?n then _ else _] =>
                 destruct (fails e' n)
             end;
        cbn [snd ses trace]; (split; [exact Hs |]);
        repeat (apply speeds_sent_ok_snoc;
                [| intros ? Heq;
                   first [discriminate Heq
                         | injection Heq as <-; exact Hv]]);
        exact Ht.
    + destruct (Num.gtb (Num.abs x) 0.7).
      * rewrite bind_get.
        unfold move, bind, api, record_call. cbn [ses trace out].
        repeat match goal with
               | |- context [if fails ?e' ?n then _ else _] =>
                   destruct (fails e' n)
               end;
          cbn [snd ses trace]; (split; [exact Hs |]);
          repeat (apply speeds_sent_ok_snoc;
                  [| intros ? Heq;
                     first [discriminate Heq
                           | injection Heq as <-; tauto]]);
          exact Ht.
      * unfold api, record_call.
        destruct (fails e (List.length (trace w))); cbn [snd ses trace];
          (split; [exact Hs |]);
          (apply speeds_sent_ok_snoc;
           [exact Ht | intros ? Heq; injection Heq as <-; tauto]).
Qed.

Lemma speeds_tick :
  preserves (fun w => speed_ok (ses w) /\ speeds_sent_ok (trace w)) tick.
Proof.
  unfold tick, battery_step, auto_straighten, display_number,
    check_konami_code, on_button_pressed, check_battery.
  repeat preserve_call_step;
    try apply speeds_activate; try apply speeds_presets;
    try apply speeds_movement; speed_side.
Qed.

(** In a session created by the constructor, or any session whose speed is
    a preset speed with cheat mode off, the loop keeps the speed among 50,
    70, 100 and 200 until cheat mode is activated and at 255 afterwards;
    and every speed command sent to the robot carries 0, one of those
    values or 255. *)
Theorem loop_speeds (ticks : list Env) (w : World) :
  speed_ok (ses w) ->
  speeds_sent_ok (trace w) ->
  speed_ok (ses (snd (while_running ticks w))) /\
  speeds_sent_ok (trace (snd (while_running ticks w))).
Proof.
  intros Hs Ht.
  apply (preserves_while_running _ speeds_tick). split; assumption.
Qed.

Lemma loop_speeds_witness :
  speed_ok (ses fresh) /\
  speeds_sent_ok (trace fresh) /\
  speed_ok (ses (snd (while_running [press 2; drifting] fresh))) /\
  speeds_sent_ok (trace (snd (while_running [press 2; drifting] fresh))).
Proof.
  assert (Hs : speed_ok (ses fresh)).
  { left. split; [reflexivity | left; reflexivity]. }
  assert (Ht : speeds_sent_ok (trace fresh)).
  { intros v ok H. destruct H. }
  split; [exact Hs |]. split; [exact Ht |].
  exact (loop_speeds [press 2; drifting] fresh Hs Ht).
Defined.

(** ** Discovery *)

(** With a non-empty name [discover_toy] only searches by name: when the
    named robot is not found the result is no robot, even if other robots
    are in range, and [main] then stays out of the loop.  Without a name,
    or with the empty name, it takes the first robot of the scan. *)
Theorem discover_toy_no_fallback (st : Startup) (name : string)
    (joystick_id player : Z) :
  name <> EmptyString ->
  find_toy st name = None ->
  discover_toy st (Some name) = ([MsgSearchingNamed name; MsgDiscoverError],
                                 None) /\
  loop_entered (main st (Some name) joystick_id player) = false /\
  discover_toy st (Some EmptyString) = discover_toy st None /\
  snd (discover_toy st None) = hd_error (find_toys st).
Proof.
  intros Hname Hfind.
  assert (Hd : discover_toy st (Some name)
               = ([MsgSearchingNamed name; MsgDiscoverError], None)).
  { unfold discover_toy, truthy.
    destruct name as [| c rest]; [contradiction |].
    rewrite Hfind. reflexivity. }
  split; [exact Hd |]. split; [| split].
  - unfold main. rewrite Hd.
    destruct (joystick_count st =? 0); [reflexivity |].
    destruct (open_joystick st joystick_id); reflexivity.
  - reflexivity.
  - unfold discover_toy, truthy. destruct (find_toys st); reflexivity.
Qed.

Lemma discover_toy_no_fallback_witness :
  "SB-1234"%string <> EmptyString /\
  find_toy wrong_name "SB-1234" = None /\
  find_toys wrong_name = ["SB-9999"%string] /\
  snd (discover_toy wrong_name (Some "SB-1234"%string)) = None /\
  loop_entered (main wrong_name (Some "SB-1234"%string) 0 1) = false.
Proof.
  assert (Hname : "SB-1234"%string <> EmptyString) by discriminate.
  assert (Hfind : find_toy wrong_name "SB-1234" = None) by reflexivity.
  split; [exact Hname |]. split; [exact Hfind |]. split; [reflexivity |].
  pose proof (discover_toy_no_fallback wrong_name "SB-1234" 0 1 Hname Hfind)
    as (Hd & Hloop & _).
  split; [rewrite Hd; reflexivity | exact Hloop].
Defined.

(** ** The cursor over a whole run *)

(** Started with the cursor inside the sequence, the loop keeps it there
    for as long as it runs, so indexing [KONAMI_CODE] never fails: the
    only exception that can end the loop is a failed robot call. *)
Theorem loop_cursor_in_range (ticks : list Env) (w : World) :
  cursor_ok (ses w) ->
  match while_running ticks w with
  | (Aborted x, w') => escapes x w'
  | (_, w') => cursor_ok (ses w')
  end.
Proof.
  revert w. induction ticks as [| e rest IH]; intros w Hcur;
    cbn [while_running].
  - destruct (is_running (ses w)); exact Hcur.
  - destruct (is_running (ses w)); [| exact Hcur].
    pose proof (guarded_tick e w Hcur) as Hg.
    destruct (tick e w) as [[[] | x] w'].
    + apply IH; exact Hg.
    + exact Hg.
Qed.

Lemma loop_cursor_in_range_witness :
  cursor_ok (ses fresh) /\
  escapes ActuatorError (snd (while_running [stalled; quiet] fresh)).
Proof.
  assert (Hcur : cursor_ok (ses fresh)) by (unfold cursor_ok; cbn; lia).
  split; [exact Hcur |].
  exact (loop_cursor_in_range [stalled; quiet] fresh Hcur).
Defined.
